(** * Doctor: task lifecycle and input-validation core

    A shallow embedding of [backend/app/models/enums.py],
    [backend/app/models/validators.py] and [backend/app/models/models.py],
    with the properties of the conversion policy, the validators and the
    [Task] entity.

    Conventions.
    - A Python [str] is a Rocq [string], one character per code point; the
      embedding covers the code points U+0000..U+00FF, on which [lower],
      [encode_utf8] and the path functions below are exactly Python's.
    - A Python [int] is a [Z]; [bytes] is a [list byte].
    - A [dict] is a [gmap]; [d.get(k, v)] is [default v (d !! k)].
    - A validator's [(is_valid, error_message)] pair is a
      [bool * option string]. *)

From Stdlib Require Import ZArith QArith String Ascii Strings.Byte List Lia Bool DecimalString.
From stdpp Require Import base option gmap strings list.

Local Open Scope string_scope.
Local Open Scope Z_scope.

(** ** Python built-ins used by the source *)

Module Py.

(** [str.lower] on one character: the upper-case letters of U+0000..U+00FF
    are A..Z and U+00C0..U+00DE without the multiplication sign U+00D7;
    each is 32 below its lower-case form. *)
Definition lower_char (c : ascii) : ascii :=
  let n := N_of_ascii c in
  if ((65 <=? n) && (n <=? 90))%N
     || ((192 <=? n) && (n <=? 222) && negb (n =? 215))%N
  then ascii_of_N (n + 32)
  else c.

(** [s.lower()] *)
Fixpoint lower (s : string) : string :=
  match s with
  | EmptyString => EmptyString
  | String c r => String (lower_char c) (lower r)
  end.

(** [c in s] for a one-character [c] *)
Fixpoint contains_char (c : ascii) (s : string) : bool :=
  match s with
  | EmptyString => false
  | String d r => if Ascii.eqb c d then true else contains_char c r
  end.

(** [len(s)] *)
Definition len (s : string) : Z := Z.of_nat (String.length s).

(** Truth value of a [str]: [not s] is [negb (truthy s)]. *)
Definition truthy (s : string) : bool :=
  match s with EmptyString => false | _ => true end.

(** Truth value of an [Optional[int]]: [None] and [0] are falsy. *)
Definition truthy_int (n : option Z) : bool :=
  match n with
  | None => false
  | Some k => negb (k =? 0)
  end.

(** [str(n)] for an [int], as an f-string prints it. *)
Definition str_of_int (n : Z) : string := NilZero.string_of_int (Z.to_int n).

(** [s.replace(a, b)] for one-character [a] and [b]. *)
Fixpoint replace_char (a b : ascii) (s : string) : string :=
  match s with
  | EmptyString => EmptyString
  | String c r => String (if Ascii.eqb a c then b else c) (replace_char a b r)
  end.

(** [s.startswith(prefix)] on [bytes]. *)
Fixpoint startswith (prefix s : list byte) : bool :=
  match prefix, s with
  | [], _ => true
  | _ :: _, [] => false
  | a :: p', b :: s' => Byte.eqb a b && startswith p' s'
  end.

(** [b in s] for one byte [b]. *)
Definition contains_byte (b : byte) (s : list byte) : bool :=
  existsb (Byte.eqb b) s.

(** The UTF-8 encoding of one code point below U+0100. *)
Definition encode_utf8_char (c : ascii) : list byte :=
  let n := N_of_ascii c in
  if (n <? 128)%N then [byte_of_ascii c]
  else
    match Byte.of_N (N.lor 192 (N.shiftr n 6)),
          Byte.of_N (N.lor 128 (N.land n 63)) with
    | Some b1, Some b2 => [b1; b2]
    | _, _ => []
    end.

(** [s.encode('utf-8')] *)
Fixpoint encode_utf8 (s : string) : list byte :=
  match s with
  | EmptyString => []
  | String c r => encode_utf8_char c ++ encode_utf8 r
  end.

(** [bs.decode('utf-8')], strict: [None] stands for [UnicodeDecodeError].
    [need] continuation bytes are still expected, the next one within
    [lo..hi]; [acc] holds the bits of the code point read so far. *)
Fixpoint decode_utf8_from (need : nat) (lo hi acc : N) (bs : list byte)
  : option (list N) :=
  match bs with
  | [] => match need with O => Some [] | S _ => None end
  | b :: r =>
      let n := Byte.to_N b in
      match need with
      | O =>
          if (n <? 128)%N then cons n <$> decode_utf8_from 0 128 191 0 r
          else if ((194 <=? n) && (n <=? 223))%N
          then decode_utf8_from 1 128 191 (N.land n 31) r
          else if (n =? 224)%N
          then decode_utf8_from 2 160 191 (N.land n 15) r
          else if (n =? 237)%N
          then decode_utf8_from 2 128 159 (N.land n 15) r
          else if ((225 <=? n) && (n <=? 239))%N
          then decode_utf8_from 2 128 191 (N.land n 15) r
          else if (n =? 240)%N
          then decode_utf8_from 3 144 191 (N.land n 7) r
          else if ((241 <=? n) && (n <=? 243))%N
          then decode_utf8_from 3 128 191 (N.land n 7) r
          else if (n =? 244)%N
          then decode_utf8_from 3 128 143 (N.land n 7) r
          else None
      | S k =>
          if ((lo <=? n) && (n <=? hi))%N
          then
            let acc' := (acc * 64 + N.land n 63)%N in
            match k with
            | O => cons acc' <$> decode_utf8_from 0 128 191 0 r
            | S _ => decode_utf8_from k 128 191 acc' r
            end
          else None
      end
  end.

Definition decode_utf8 (bs : list byte) : option (list N) :=
  decode_utf8_from 0 128 191 0 bs.

(** [bs.decode('latin-1')]: every byte is its own code point. *)
Definition decode_latin1 (bs : list byte) : option (list N) :=
  Some (Byte.to_N <$> bs).

End Py.

(** ** enums.py *)

(** [class DocumentFormat(str, Enum)] *)
Inductive DocumentFormat : Type :=
| MARKDOWN | MD | PDF | HTML | HTM.

Module DocumentFormat.

(** The member's [.value]. *)
Definition value (f : DocumentFormat) : string :=
  match f with
  | MARKDOWN => "markdown"
  | MD => "md"
  | PDF => "pdf"
  | HTML => "html"
  | HTM => "htm"
  end.

(** Look-up by value, [DocumentFormat(s)]; [None] where Python raises. *)
Definition of_value (s : string) : option DocumentFormat :=
  if String.eqb s "markdown" then Some MARKDOWN
  else if String.eqb s "md" then Some MD
  else if String.eqb s "pdf" then Some PDF
  else if String.eqb s "html" then Some HTML
  else if String.eqb s "htm" then Some HTM
  else None.

Lemma format_of_value_value f : of_value (value f) = Some f.
Proof. by destruct f. Qed.

(** [format_map] of [normalize]. *)
Definition format_map : gmap string DocumentFormat :=
  {[ "markdown" := MARKDOWN;
     "md" := MARKDOWN;
     "pdf" := PDF;
     "html" := HTML;
     "htm" := HTML ]}.

(** [DocumentFormat.normalize(format_str)] *)
Definition normalize (format_str : string) : DocumentFormat :=
  default MARKDOWN (format_map !! Py.lower format_str).

End DocumentFormat.

#[global] Instance DocumentFormat_eq_dec : EqDecision DocumentFormat.
Proof. solve_decision. Defined.

(** A member of a [str]-mixin enum hashes and compares as its value, so a
    [dict] keyed by members is keyed by their values. *)
#[global] Instance DocumentFormat_countable : Countable DocumentFormat :=
  inj_countable DocumentFormat.value DocumentFormat.of_value
                DocumentFormat.format_of_value_value.

(** [class TaskStatus(str, Enum)] *)
Inductive TaskStatus : Type :=
| CREATED | QUEUED | WAITING | PROCESSING
| SUCCESS | FAILED | CANCELLED | EXPIRED.

#[global] Instance TaskStatus_eq_dec : EqDecision TaskStatus.
Proof. solve_decision. Defined.

Module TaskStatus.

Definition value (s : TaskStatus) : string :=
  match s with
  | CREATED => "created"
  | QUEUED => "queued"
  | WAITING => "waiting"
  | PROCESSING => "processing"
  | SUCCESS => "success"
  | FAILED => "failed"
  | CANCELLED => "cancelled"
  | EXPIRED => "expired"
  end.

(** [is_final]: [self in {SUCCESS, FAILED, CANCELLED, EXPIRED}] *)
Definition is_final (self : TaskStatus) : bool :=
  bool_decide (self ∈ [SUCCESS; FAILED; CANCELLED; EXPIRED]).

(** [is_active]: [self == PROCESSING] *)
Definition is_active (self : TaskStatus) : bool :=
  bool_decide (self = PROCESSING).

(** [can_cancel]: [self in {CREATED, QUEUED, WAITING, PROCESSING}] *)
Definition can_cancel (self : TaskStatus) : bool :=
  bool_decide (self ∈ [CREATED; QUEUED; WAITING; PROCESSING]).

End TaskStatus.

(** [class ConversionTheme(str, Enum)] *)
Inductive ConversionTheme : Type :=
| THEME_DEFAULT | THEME_GITHUB | THEME_MATERIAL
| THEME_DARK | THEME_LIGHT | THEME_ACADEMIC.

(** [class CodeStyle(str, Enum)] *)
Inductive CodeStyle : Type :=
| STYLE_DEFAULT | STYLE_MONOKAI | STYLE_GITHUB | STYLE_DRACULA
| STYLE_SOLARIZED_LIGHT | STYLE_SOLARIZED_DARK | STYLE_VS_CODE
| STYLE_ATOM_ONE.

(** [class UploadSource(str, Enum)] *)
Inductive UploadSource : Type :=
| SRC_FILE | SRC_TEXT | SRC_URL | SRC_API.

(** [class Priority(int, Enum)] *)
Inductive Priority : Type :=
| LOW | NORMAL | HIGH | URGENT.

Module Priority.

Definition value (p : Priority) : Z :=
  match p with LOW => 0 | NORMAL => 1 | HIGH => 2 | URGENT => 3 end.

(** [queue_weight] *)
Definition queue_weight (self : Priority) : Z :=
  match self with LOW => 1 | NORMAL => 5 | HIGH => 10 | URGENT => 100 end.

End Priority.

(** [class ErrorCode(str, Enum)] *)
Inductive ErrorCode : Type :=
| FILE_TOO_LARGE | FILE_NOT_FOUND | INVALID_FILE_FORMAT | FILE_CORRUPTED
| TASK_NOT_FOUND | TASK_EXPIRED | TASK_LIMIT_EXCEEDED | TASK_TIMEOUT
| CONVERSION_FAILED | UNSUPPORTED_CONVERSION | INVALID_OPTIONS
| STORAGE_ERROR | MEMORY_LIMIT | INTERNAL_ERROR | SERVICE_UNAVAILABLE.

#[global] Instance ErrorCode_eq_dec : EqDecision ErrorCode.
Proof. solve_decision. Defined.

Module ErrorCode.

Definition value (e : ErrorCode) : string :=
  match e with
  | FILE_TOO_LARGE => "file_too_large"
  | FILE_NOT_FOUND => "file_not_found"
  | INVALID_FILE_FORMAT => "invalid_file_format"
  | FILE_CORRUPTED => "file_corrupted"
  | TASK_NOT_FOUND => "task_not_found"
  | TASK_EXPIRED => "task_expired"
  | TASK_LIMIT_EXCEEDED => "task_limit_exceeded"
  | TASK_TIMEOUT => "task_timeout"
  | CONVERSION_FAILED => "conversion_failed"
  | UNSUPPORTED_CONVERSION => "unsupported_conversion"
  | INVALID_OPTIONS => "invalid_options"
  | STORAGE_ERROR => "storage_error"
  | MEMORY_LIMIT => "memory_limit"
  | INTERNAL_ERROR => "internal_error"
  | SERVICE_UNAVAILABLE => "service_unavailable"
  end.

(** Every member of the enumeration, in declaration order
    ([list(ErrorCode)]). *)
Definition members : list ErrorCode :=
  [ FILE_TOO_LARGE; FILE_NOT_FOUND; INVALID_FILE_FORMAT; FILE_CORRUPTED;
    TASK_NOT_FOUND; TASK_EXPIRED; TASK_LIMIT_EXCEEDED; TASK_TIMEOUT;
    CONVERSION_FAILED; UNSUPPORTED_CONVERSION; INVALID_OPTIONS;
    STORAGE_ERROR; MEMORY_LIMIT; INTERNAL_ERROR; SERVICE_UNAVAILABLE ].

(** Look-up by value, [ErrorCode(s)]; [None] where Python raises. *)
Definition of_value (s : string) : option ErrorCode :=
  List.find (fun e => String.eqb (value e) s) members.

Lemma error_of_value_value e : of_value (value e) = Some e.
Proof. by destruct e. Qed.

End ErrorCode.

#[global] Instance ErrorCode_countable : Countable ErrorCode :=
  inj_countable ErrorCode.value ErrorCode.of_value ErrorCode.error_of_value_value.

Module ErrorCodeStatus.

(** [status_map] of [to_http_status]: the dict literal, item by item. *)
Definition status_map : gmap ErrorCode Z :=
  list_to_map
    [ (FILE_TOO_LARGE, 413);
      (FILE_NOT_FOUND, 404);
      (INVALID_FILE_FORMAT, 400);
      (FILE_CORRUPTED, 422);
      (TASK_NOT_FOUND, 404);
      (TASK_EXPIRED, 410);
      (TASK_LIMIT_EXCEEDED, 429);
      (TASK_TIMEOUT, 408);
      (CONVERSION_FAILED, 500);
      (UNSUPPORTED_CONVERSION, 400);
      (INVALID_OPTIONS, 400);
      (STORAGE_ERROR, 507);
      (MEMORY_LIMIT, 507);
      (INTERNAL_ERROR, 500);
      (SERVICE_UNAVAILABLE, 503) ].

(** [ErrorCode.to_http_status(self)] *)
Definition to_http_status (self : ErrorCode) : Z :=
  default 500 (status_map !! self).

(** The status classes the specification lists. *)
Definition status_classes : list Z :=
  [400; 404; 408; 410; 413; 422; 429; 500; 503; 507].

End ErrorCodeStatus.

(** [class Constants] *)
Module Constants.

Definition MAX_FILE_SIZE : Z := 524288000.
Definition MAX_TEXT_SIZE : Z := 10485760.
Definition MAX_URL_SIZE : Z := 104857600.

(** [CONVERSION_MATRIX] *)
Definition CONVERSION_MATRIX : gmap DocumentFormat (list DocumentFormat) :=
  {[ MARKDOWN := [PDF; HTML];
     PDF := [MARKDOWN; HTML];
     HTML := [MARKDOWN; PDF] ]}.

(** [Constants.can_convert(source, target)] *)
Definition can_convert (source target : DocumentFormat) : bool :=
  let source_norm := DocumentFormat.normalize (DocumentFormat.value source) in
  let target_norm := DocumentFormat.normalize (DocumentFormat.value target) in
  if decide (source_norm = target_norm) then false
  else bool_decide (target_norm ∈ default [] (CONVERSION_MATRIX !! source_norm)).

End Constants.

(** ** pathlib, POSIX flavour

    [PurePosixPath] as [Path(path)] builds it from one string: the drive is
    always empty, so a path is its root and the components after it. *)

Module PosixPath.

Record t : Type := mk { root : string; tail : list string }.

(** [rel.split('/')]: the components between the slashes, empty ones
    included; a string without a slash is its only component. *)
Fixpoint split (s : string) : list string :=
  match s with
  | EmptyString => [EmptyString]
  | String c r =>
      if Ascii.eqb "/" c then EmptyString :: split r
      else
        match split r with
        | h :: t => String c h :: t
        | [] => [String c EmptyString]
        end
  end.

(** [sep.join(parts)] *)
Fixpoint join (parts : list string) : string :=
  match parts with
  | [] => EmptyString
  | [x] => x
  | x :: r => x ++ "/" ++ join r
  end.

(** [posixpath.splitroot]: a path that does not start with a slash has
    no root; the root is [//] for exactly two leading slashes and [/] for
    one or for three and more. What follows the root is returned with it:
    [p[1:]] after [/], [p[2:]] after [//]. *)
Definition splitroot (p : string) : string * string :=
  match p with
  | EmptyString => ("", p)
  | String c1 p1 =>
      if negb (Ascii.eqb "/" c1) then ("", p)
      else
        match p1 with
        | EmptyString => ("/", p1)
        | String c2 p2 =>
            if negb (Ascii.eqb "/" c2) then ("/", p1)
            else
              match p2 with
              | EmptyString => ("//", p2)
              | String c3 _ =>
                  if Ascii.eqb "/" c3 then ("/", p1) else ("//", p2)
              end
        end
  end.

(** [Path(path)]: the components of the part after the root that are
    neither empty nor [.]. *)
Definition Path (path : string) : t :=
  let '(root, rel) := splitroot path in
  mk root (filter (fun x => x <> "" /\ x <> ".") (split rel)).

(** What [Path] keeps as a component: not empty, not [.], no slash. *)
Definition component (x : string) : Prop :=
  x <> "" /\ x <> "." /\ Py.contains_char "/" x = false.

(** [p.is_absolute()] *)
Definition is_absolute (p : t) : bool := Py.truthy (root p).

(** [p.parts] *)
Definition parts (p : t) : list string :=
  if Py.truthy (root p) then root p :: tail p else tail p.

(** [p.name] *)
Definition name (p : t) : string := default "" (last (tail p)).

(** [str(p)] *)
Definition str (p : t) : string :=
  let s := root p ++ join (tail p) in
  if Py.truthy s then s else ".".

End PosixPath.

(** ** validators.py *)

Definition Result : Type := bool * option string.

Module FileValidator.

(** [max_sizes] of [validate_file_size]. *)
Definition max_sizes : gmap string Z :=
  {[ "file" := Constants.MAX_FILE_SIZE;
     "text" := Constants.MAX_TEXT_SIZE;
     "url" := Constants.MAX_URL_SIZE ]}.

(** [FileValidator.validate_file_size(size, source)] *)
Definition validate_file_size (size : Z) (source : string) : Result :=
  if size <=? 0 then (false, Some "File size must be positive")
  else
    let max_size := default Constants.MAX_FILE_SIZE (max_sizes !! source) in
    if size >? max_size
    then (false, Some ("Size " ++ Py.str_of_int size
                       ++ " bytes exceeds maximum of "
                       ++ Py.str_of_int max_size ++ " bytes"))
    else (true, None).

(** What [file_path.exists()], [open(file_path, 'rb')] and [f.read]
    find at a path. *)
Inductive FileState : Type :=
| Missing                          (* [exists()] is false *)
| Failing                          (* it exists; opening or reading raises *)
| Holding (content : list byte).   (* it exists and reads as [content] *)

(** [b'%PDF'] *)
Definition pdf_magic : list byte := [x25; x50; x44; x46].

(** [FileValidator.quick_format_check(file_path, expected_format)], on the
    state of the file at [file_path]. *)
Definition quick_format_check (file : FileState)
           (expected_format : DocumentFormat) : Result :=
  match file with
  | Missing => (false, Some "File does not exist")
  | Failing => (true, None)
  | Holding content =>
      let header := take 1024 content in
      if decide (expected_format = PDF) then
        if negb (Py.startswith pdf_magic header)
        then (false,
              Some "File doesn't appear to be a PDF (missing %PDF header)")
        else (true, None)
      else if bool_decide (expected_format ∈ [HTML; HTM; MARKDOWN; MD]) then
        if Py.contains_byte x00 header
        then (false, Some "File appears to be binary, not text")
        else
          match Py.decode_utf8 header with
          | Some _ => (true, None)
          | None =>
              match Py.decode_latin1 header with
              | Some _ => (true, None)
              | None => (false, Some "File is not readable as text")
              end
          end
      else (true, None)
  end.

(** [FileValidator.sanitize_path(path)] *)
Definition sanitize_path (path : string) : string :=
  let p := PosixPath.Path path in
  if PosixPath.is_absolute p || bool_decide (".." ∈ PosixPath.parts p)
  then PosixPath.name p
  else Py.replace_char "\" "/" (PosixPath.str p).

End FileValidator.

Module TextValidator.

(** [TextValidator.validate_text_input(text, max_size)]; an omitted
    [max_size] is [None]. The size is checked under [if max_size:], which
    [None] and [0] both fail. *)
Definition validate_text_input (text : string) (max_size : option Z)
  : Result :=
  if negb (Py.truthy text) then (false, Some "Text cannot be empty")
  else if Py.contains_char "000" text
  then (false, Some "Text contains null bytes")
  else
    match max_size with
    | Some m =>
        if Py.truthy_int max_size then
          let text_bytes := Py.encode_utf8 text in
          if Z.of_nat (length text_bytes) >? m
          then (false, Some ("Text size "
                             ++ Py.str_of_int (Z.of_nat (length text_bytes))
                             ++ " bytes exceeds maximum of "
                             ++ Py.str_of_int m ++ " bytes"))
          else (true, None)
        else (true, None)
    | None => (true, None)
    end.

End TextValidator.

Module URLValidator.

(** What [validate_url] reads of [urlparse(url)]: [parsed.scheme] and
    [parsed.hostname] ([None] for a URL without a host). *)
Record ParseResult : Type := Parsed { scheme : string; hostname : option string }.

Definition ALLOWED_SCHEMES : gset string := {[ "http"; "https" ]}.
Definition BLOCKED_DOMAINS : gset string :=
  {[ "localhost"; "127.0.0.1"; "0.0.0.0"; "::1" ]}.

Section WithLibrary.

(** [urllib.parse.urlparse]; [inl msg] stands for [ValueError(msg)]. *)
Variable urlparse : string -> string + ParseResult.

(** [ipaddress.ip_address]; [None] stands for [ValueError]. The three
    predicates are the properties of the address it returns. *)
Variable IPAddress : Type.
Variable ip_address : string -> option IPAddress.
Variables is_private is_reserved is_loopback : IPAddress -> bool.

(** [URLValidator._is_private_ip(hostname)] *)
Definition _is_private_ip (hostname : string) : bool :=
  match ip_address hostname with
  | Some ip => is_private ip || is_reserved ip || is_loopback ip
  | None => false
  end.

(** [x in BLOCKED_DOMAINS] for an [Optional[str]] *)
Definition blocked (h : option string) : bool :=
  match h with
  | Some d => bool_decide (d ∈ BLOCKED_DOMAINS)
  | None => false
  end.

(** [URLValidator.validate_url(url)] *)
Definition validate_url (url : string) : Result :=
  if negb (Py.truthy url) then (false, Some "URL cannot be empty")
  else if Py.len url >? 2048
  then (false, Some "URL too long (max 2048 characters)")
  else
    match urlparse url with
    | inl e => (false, Some ("Invalid URL: " ++ e))
    | inr parsed =>
        if negb (bool_decide (scheme parsed ∈ ALLOWED_SCHEMES))
        then (false, Some ("URL scheme '" ++ scheme parsed
                           ++ "' not allowed (use http/https)"))
        else if blocked (hostname parsed)
        then (false, Some "Cannot access localhost")
        else if match hostname parsed with
                | Some h => Py.truthy h && _is_private_ip h
                | None => false
                end
        then (false, Some "Cannot access private network addresses")
        else (true, None)
    end.

End WithLibrary.

End URLValidator.

(** ** models.py *)

(** [uuid.UUID], a 128-bit number. *)
Definition UUID : Type := N.

(** [datetime.datetime], naive UTC, in microseconds since the epoch. *)
Definition datetime : Type := Z.

(** [(b - a).total_seconds()] as the exact quotient; Python rounds it to
    the nearest float. *)
Definition total_seconds (a b : datetime) : Q := Qmake (b - a) 1000000.

(** [class ConversionOptions(BaseModel)] *)
Record ConversionOptions : Type := {
  theme : ConversionTheme;
  code_style : CodeStyle;
  page_size : string;
  margin : string;
  include_toc : bool;
  include_page_numbers : bool;
  embed_images : bool;
  process_math : bool;
  process_mermaid : bool
}.

(** [ConversionOptions()] *)
Definition default_options : ConversionOptions :=
  {| theme := THEME_DEFAULT; code_style := STYLE_DEFAULT;
     page_size := "A4"; margin := "20mm";
     include_toc := false; include_page_numbers := true;
     embed_images := true; process_math := true; process_mermaid := true |}.

(** [class Task(BaseModel)] *)
Record Task : Type := {
  id : UUID;
  status : TaskStatus;
  priority : Priority;
  source : UploadSource;
  input_file_id : UUID;
  output_file_id : option UUID;
  cache_key : option string;
  source_format : DocumentFormat;
  target_format : DocumentFormat;
  options : ConversionOptions;
  progress : Z;
  message : string;
  error_code : option ErrorCode;
  error_details : option string;
  created_at : datetime;
  started_at : option datetime;
  completed_at : option datetime;
  processing_time : option Q;
  memory_used : option Z;
  retry_count : Z
}.

Module TaskModel.

(** The keyword arguments of [Task(...)]: the three required fields, and
    [None] for an optional one that is left out. *)
Record Kwargs : Type := {
  kw_id : option UUID;
  kw_status : option TaskStatus;
  kw_priority : option Priority;
  kw_source : option UploadSource;
  kw_input_file_id : UUID;
  kw_output_file_id : option UUID;
  kw_cache_key : option string;
  kw_source_format : DocumentFormat;
  kw_target_format : DocumentFormat;
  kw_options : option ConversionOptions;
  kw_progress : option Z;
  kw_message : option string;
  kw_error_code : option ErrorCode;
  kw_error_details : option string;
  kw_created_at : option datetime;
  kw_started_at : option datetime;
  kw_completed_at : option datetime;
  kw_processing_time : option Q;
  kw_memory_used : option Z;
  kw_retry_count : option Z
}.

(** [Field(ge=lo, le=hi)] on a given value; a default is not validated. *)
Definition field_range (lo hi dflt : Z) (v : option Z) : string + Z :=
  match v with
  | None => inr dflt
  | Some x =>
      if x <? lo then inl "Input should be greater than or equal"
      else if x >? hi then inl "Input should be less than or equal"
      else inr x
  end.

(** [normalize_formats]: an enum member is a [str], so it is normalized
    through its value. *)
Definition normalize_formats (v : DocumentFormat) : DocumentFormat :=
  DocumentFormat.normalize (DocumentFormat.value v).

(** [validate_conversion(v, info)], [source] being
    [info.data.get('source_format')]. In the message the members are
    printed as their values, as Python up to 3.11 formats them. *)
Definition validate_conversion (v : DocumentFormat)
           (source : option DocumentFormat) : string + DocumentFormat :=
  match source with
  | Some src =>
      if negb (Constants.can_convert src v)
      then inl ("Cannot convert from " ++ DocumentFormat.value src
                ++ " to " ++ DocumentFormat.value v)
      else inr v
  | None => inr v
  end.

(** The constructor [Task] on keyword arguments [kw]: the fields are validated in declaration order; [inl]
    stands for pydantic's [ValidationError]. [fresh] and [now] are what
    the default factories [uuid4] and [datetime.utcnow] return. *)
Definition new (fresh : UUID) (now : datetime) (kw : Kwargs) : string + Task :=
  let src := normalize_formats (kw_source_format kw) in
  match validate_conversion (normalize_formats (kw_target_format kw)) (Some src) with
  | inl e => inl e
  | inr tgt =>
      match field_range 0 100 0 (kw_progress kw) with
      | inl e => inl e
      | inr prog =>
          match field_range 0 3 0 (kw_retry_count kw) with
          | inl e => inl e
          | inr retries =>
              inr {| id := default fresh (kw_id kw);
                     status := default CREATED (kw_status kw);
                     priority := default NORMAL (kw_priority kw);
                     source := default SRC_FILE (kw_source kw);
                     input_file_id := kw_input_file_id kw;
                     output_file_id := kw_output_file_id kw;
                     cache_key := kw_cache_key kw;
                     source_format := src;
                     target_format := tgt;
                     options := default default_options (kw_options kw);
                     progress := prog;
                     message := default "Task created" (kw_message kw);
                     error_code := kw_error_code kw;
                     error_details := kw_error_details kw;
                     created_at := default now (kw_created_at kw);
                     started_at := kw_started_at kw;
                     completed_at := kw_completed_at kw;
                     processing_time := kw_processing_time kw;
                     memory_used := kw_memory_used kw;
                     retry_count := retries |}
          end
      end
  end.

(** [is_complete] *)
Definition is_complete (self : Task) : bool := TaskStatus.is_final (status self).

(** [is_active] *)
Definition is_active (self : Task) : bool := TaskStatus.is_active (status self).

(** [can_retry] *)
Definition can_retry (self : Task) : bool :=
  (retry_count self <? 3) && bool_decide (status self = FAILED).

(** [duration] *)
Definition duration (self : Task) : option Q :=
  match started_at self, completed_at self with
  | Some s, Some c => Some (total_seconds s c)
  | _, _ => None
  end.

(** [set_processing()]; [now] is what [datetime.utcnow()] returns. *)
Definition set_processing (now : datetime) (self : Task) : Task :=
  {| id := id self;
     status := PROCESSING;
     priority := priority self;
     source := source self;
     input_file_id := input_file_id self;
     output_file_id := output_file_id self;
     cache_key := cache_key self;
     source_format := source_format self;
     target_format := target_format self;
     options := options self;
     progress := progress self;
     message := "Processing conversion";
     error_code := error_code self;
     error_details := error_details self;
     created_at := created_at self;
     started_at := Some now;
     completed_at := completed_at self;
     processing_time := processing_time self;
     memory_used := memory_used self;
     retry_count := retry_count self |}.

(** [set_completed(output_file_id)] *)
Definition set_completed (now : datetime) (output : UUID) (self : Task) : Task :=
  {| id := id self;
     status := SUCCESS;
     priority := priority self;
     source := source self;
     input_file_id := input_file_id self;
     output_file_id := Some output;
     cache_key := cache_key self;
     source_format := source_format self;
     target_format := target_format self;
     options := options self;
     progress := 100;
     message := "Conversion completed successfully";
     error_code := error_code self;
     error_details := error_details self;
     created_at := created_at self;
     started_at := started_at self;
     completed_at := Some now;
     processing_time :=
       match started_at self with
       | Some s => Some (total_seconds s now)
       | None => processing_time self
       end;
     memory_used := memory_used self;
     retry_count := retry_count self |}.

(** [set_failed(error_code, error_details)] *)
Definition set_failed (now : datetime) (code : ErrorCode) (details : string)
           (self : Task) : Task :=
  {| id := id self;
     status := FAILED;
     priority := priority self;
     source := source self;
     input_file_id := input_file_id self;
     output_file_id := output_file_id self;
     cache_key := cache_key self;
     source_format := source_format self;
     target_format := target_format self;
     options := options self;
     progress := progress self;
     message := "Conversion failed: " ++ details;
     error_code := Some code;
     error_details := Some details;
     created_at := created_at self;
     started_at := started_at self;
     completed_at := Some now;
     processing_time := processing_time self;
     memory_used := memory_used self;
     retry_count := retry_count self |}.

(** The tasks the program can hold: built by the constructor, then
    changed by the three mutators only. *)
Inductive reachable : Task -> Prop :=
| reach_new fresh now kw t :
    new fresh now kw = inr t -> reachable t
| reach_processing now t :
    reachable t -> reachable (set_processing now t)
| reach_completed now output t :
    reachable t -> reachable (set_completed now output t)
| reach_failed now code details t :
    reachable t -> reachable (set_failed now code details t).

(** [Task(input_file_id=1, source_format="markdown", target_format="pdf")] *)
Definition minimal_kwargs : Kwargs :=
  {| kw_id := None; kw_status := None; kw_priority := None;
     kw_source := None; kw_input_file_id := 1%N;
     kw_output_file_id := None; kw_cache_key := None;
     kw_source_format := MARKDOWN; kw_target_format := PDF;
     kw_options := None; kw_progress := None; kw_message := None;
     kw_error_code := None; kw_error_details := None;
     kw_created_at := None; kw_started_at := None;
     kw_completed_at := None; kw_processing_time := None;
     kw_memory_used := None; kw_retry_count := None |}.

(** The task that call returns when [uuid4()] gives 7 and the clock
    reads 1000. *)
Definition created_task : Task :=
  {| id := 7%N; status := CREATED; priority := NORMAL; source := SRC_FILE;
     input_file_id := 1%N; output_file_id := None; cache_key := None;
     source_format := MARKDOWN; target_format := PDF;
     options := default_options; progress := 0;
     message := "Task created"; error_code := None;
     error_details := None; created_at := 1000; started_at := None;
     completed_at := None; processing_time := None; memory_used := None;
     retry_count := 0 |}.

(** [created_task] after [set_processing()] and
    [set_failed(CONVERSION_FAILED, "boom")]. *)
Definition failed_task : Task :=
  set_failed 3000 CONVERSION_FAILED "boom" (set_processing 2000 created_task).

(** [created_task] after [set_processing()] and [set_completed(9)]. *)
Definition completed_task : Task :=
  set_completed 3000 9%N (set_processing 2000 created_task).

End TaskModel.

(** ** A reference instance of the libraries behind [validate_url]

    [validate_url] is embedded over any [urlparse] and [ip_address]. This
    instance follows CPython's [urllib.parse.urlsplit] and [ipaddress] far
    enough to run the validator on concrete URLs: scheme, network location
    and host name as [urlsplit] and [SplitResult.hostname] compute them, and
    dotted-quad IPv4 addresses with the address ranges of
    [IPv4Address.is_private], [is_reserved] and [is_loopback]. IPv6
    literals, the NFKC check of the network location and the validation of a
    bracketed host are left out. *)

Module UrlLib.

(** [s.partition(c)]: the part before the first [c], whether [c] was
    found, the part after it. *)
Fixpoint partition (c : ascii) (s : string) : string * bool * string :=
  match s with
  | EmptyString => (EmptyString, false, EmptyString)
  | String d r =>
      if Ascii.eqb c d then (EmptyString, true, r)
      else let '(a, found, b) := partition c r in (String d a, found, b)
  end.

(** [s.rpartition(c)]: the same around the last [c]; everything is in
    the third part when [c] is absent. *)
Fixpoint rpartition (c : ascii) (s : string) : string * bool * string :=
  match s with
  | EmptyString => (EmptyString, false, EmptyString)
  | String d r =>
      let '(a, found, b) := rpartition c r in
      if found then (String d a, true, b)
      else if Ascii.eqb c d then (EmptyString, true, r)
      else (EmptyString, false, String d b)
  end.

Definition is_alpha (c : ascii) : bool :=
  let n := N_of_ascii c in
  (((65 <=? n) && (n <=? 90)) || ((97 <=? n) && (n <=? 122)))%N.

Definition is_digit (c : ascii) : bool :=
  let n := N_of_ascii c in ((48 <=? n) && (n <=? 57))%N.

(** [c in scheme_chars] *)
Definition scheme_char (c : ascii) : bool :=
  is_alpha c || is_digit c
  || Ascii.eqb c "+" || Ascii.eqb c "-" || Ascii.eqb c ".".

Fixpoint all_chars (f : ascii -> bool) (s : string) : bool :=
  match s with
  | EmptyString => true
  | String c r => f c && all_chars f r
  end.

(** [url.lstrip(_WHATWG_C0_CONTROL_OR_SPACE)] *)
Fixpoint lstrip_c0 (s : string) : string :=
  match s with
  | String c r => if (N_of_ascii c <=? 32)%N then lstrip_c0 r else s
  | EmptyString => EmptyString
  end.

(** Removal of the characters of [_UNSAFE_URL_BYTES_TO_REMOVE]: tab,
    carriage return, line feed. *)
Fixpoint remove_unsafe (s : string) : string :=
  match s with
  | EmptyString => EmptyString
  | String c r =>
      if Ascii.eqb c "009" || Ascii.eqb c "010" || Ascii.eqb c "013"
      then remove_unsafe r
      else String c (remove_unsafe r)
  end.

(** The scheme of [url] and what follows its colon. *)
Definition split_scheme (url : string) : string * string :=
  match partition ":" url with
  | (String c r, true, rest) =>
      if is_alpha c && all_chars scheme_char (String c r)
      then (Py.lower (String c r), rest)
      else (EmptyString, url)
  | _ => (EmptyString, url)
  end.

(** [_splitnetloc(url, 2)]: the network location ends at the first of
    [/], [?] and [#]. *)
Fixpoint netloc_prefix (s : string) : string :=
  match s with
  | EmptyString => EmptyString
  | String c r =>
      if Ascii.eqb c "/" || Ascii.eqb c "?" || Ascii.eqb c "#"
      then EmptyString
      else String c (netloc_prefix r)
  end.

(** [SplitResult.hostname] of a network location. *)
Definition hostname_of (netloc : string) : option string :=
  let '(_, _, hostinfo) := rpartition "@" netloc in
  let '(_, have_open_br, bracketed) := partition "[" hostinfo in
  let host :=
    if have_open_br then fst (fst (partition "]" bracketed))
    else fst (fst (partition ":" hostinfo)) in
  if Py.truthy host then
    let '(name, percent, zone) := partition "%" host in
    Some (Py.lower name ++ (if percent then "%" else "") ++ zone)
  else None.

(** [urlparse(url)], as far as the scheme and the host name. *)
Definition urlparse (url : string) : string + URLValidator.ParseResult :=
  let '(scheme, rest) := split_scheme (remove_unsafe (lstrip_c0 url)) in
  match rest with
  | String "/" (String "/" after) =>
      let netloc := netloc_prefix after in
      if xorb (Py.contains_char "[" netloc) (Py.contains_char "]" netloc)
      then inl "Invalid IPv6 URL"
      else inr (URLValidator.Parsed scheme (hostname_of netloc))
  | _ => inr (URLValidator.Parsed scheme None)
  end.

(** [s.split('.')] *)
Fixpoint split_dots (s : string) : list string :=
  match s with
  | EmptyString => [EmptyString]
  | String c r =>
      if Ascii.eqb c "." then EmptyString :: split_dots r
      else
        match split_dots r with
        | h :: t => String c h :: t
        | [] => [String c EmptyString]
        end
  end.

Fixpoint digits_value (acc : Z) (s : string) : Z :=
  match s with
  | EmptyString => acc
  | String c r => digits_value (10 * acc + (Z.of_N (N_of_ascii c) - 48)) r
  end.

(** [IPv4Address._parse_octet]: one to three decimal digits, no leading
    zero, at most 255. *)
Definition parse_octet (s : string) : option Z :=
  let ok_shape :=
    Py.truthy s && all_chars is_digit s && (String.length s <=? 3)%nat
    && (String.eqb s "0" || negb (String.prefix "0" s)) in
  if ok_shape && (digits_value 0 s <=? 255) then Some (digits_value 0 s)
  else None.

(** An IPv4 address as its 32-bit integer. *)
Definition IPAddress : Type := Z.

(** [ipaddress.ip_address(s)] for dotted-quad strings. *)
Definition ip_address (s : string) : option IPAddress :=
  match split_dots s with
  | [a; b; c; d] =>
      match parse_octet a, parse_octet b, parse_octet c, parse_octet d with
      | Some x, Some y, Some z, Some w =>
          Some (Z.lor (Z.shiftl x 24)
                      (Z.lor (Z.shiftl y 16) (Z.lor (Z.shiftl z 8) w)))
      | _, _, _, _ => None
      end
  | _ => None
  end.

(** [ip in network] for the network [base/bits]. *)
Definition in_network (base bits ip : Z) : bool :=
  Z.shiftr ip (32 - bits) =? Z.shiftr base (32 - bits).

Definition quad (a b c d : Z) : Z := ((a * 256 + b) * 256 + c) * 256 + d.

Definition is_loopback (ip : IPAddress) : bool :=
  in_network (quad 127 0 0 0) 8 ip.

Definition is_reserved (ip : IPAddress) : bool :=
  in_network (quad 240 0 0 0) 4 ip.

Definition is_private (ip : IPAddress) : bool :=
  existsb (fun net => in_network (fst net) (snd net) ip)
    [ (quad 0 0 0 0, 8); (quad 10 0 0 0, 8); (quad 127 0 0 0, 8);
      (quad 169 254 0 0, 16); (quad 172 16 0 0, 12);
      (quad 192 0 0 0, 29); (quad 192 0 0 170, 31);
      (quad 192 0 2 0, 24); (quad 192 168 0 0, 16);
      (quad 198 18 0 0, 15); (quad 198 51 100 0, 24);
      (quad 203 0 113 0, 24); (quad 240 0 0 0, 4);
      (quad 255 255 255 255, 32) ].

(** [URLValidator.validate_url] over this instance. *)
Definition validate_url : string -> Result :=
  URLValidator.validate_url urlparse IPAddress ip_address
                            is_private is_reserved is_loopback.

End UrlLib.

(** The keys of [format_map], as [normalize] reads them. *)
Definition aliases : list string := ["markdown"; "md"; "pdf"; "html"; "htm"].

(** ** More Python built-ins *)

Module PyText.

(** [sub in s] for strings *)
Fixpoint contains (sub s : string) : bool :=
  String.prefix sub s
  || match s with
     | EmptyString => false
     | String _ r => contains sub r
     end.

(** [c.isspace()] on the code points below U+0100: the ASCII white space,
    the separators U+001C..U+001F, NEL U+0085 and the no-break space
    U+00A0. *)
Definition isspace (c : ascii) : bool :=
  let n := N_of_ascii c in
  (((9 <=? n) && (n <=? 13)) || ((28 <=? n) && (n <=? 32))
   || (n =? 133) || (n =? 160))%N.

(** [s.lstrip()] *)
Fixpoint lstrip (s : string) : string :=
  match s with
  | EmptyString => EmptyString
  | String c r => if isspace c then lstrip r else s
  end.

(** [s.rstrip()] *)
Fixpoint rstrip (s : string) : string :=
  match s with
  | EmptyString => EmptyString
  | String c r =>
      match rstrip r with
      | EmptyString => if isspace c then EmptyString else String c EmptyString
      | r' => String c r'
      end
  end.

(** [s.strip()] *)
Definition strip (s : string) : string := rstrip (lstrip s).

(** [s.replace(c, '')] for a one-character [c] *)
Fixpoint remove_char (c : ascii) (s : string) : string :=
  match s with
  | EmptyString => EmptyString
  | String d r =>
      if Ascii.eqb c d then remove_char c r else String d (remove_char c r)
  end.

Definition CR : ascii := "013".
Definition LF : ascii := "010".
Definition NUL : ascii := "000".

(** [s.replace('\r\n', '\n')]: left to right, without overlap. *)
Fixpoint replace_crlf (s : string) : string :=
  match s with
  | EmptyString => EmptyString
  | String c r =>
      match r with
      | EmptyString => String c EmptyString
      | String d r' =>
          if Ascii.eqb CR c && Ascii.eqb LF d
          then String LF (replace_crlf r')
          else String c (replace_crlf r)
      end
  end.

(** A character of the class [\d], on the code points below U+0100. *)
Definition isdigit (c : ascii) : bool :=
  let n := N_of_ascii c in ((48 <=? n) && (n <=? 57))%N.

(** A character of the class that [validate_filename] searches for: less
    than, greater than, colon, double quote, bar, question mark, star. *)
Definition dangerous_char (c : ascii) : bool :=
  let n := N_of_ascii c in
  ((n =? 60) || (n =? 62) || (n =? 58) || (n =? 34)
   || (n =? 124) || (n =? 63) || (n =? 42))%N.

(** [re.search] with that class finds a match in [s]. *)
Fixpoint search_dangerous (s : string) : bool :=
  match s with
  | EmptyString => false
  | String c r => dangerous_char c || search_dangerous r
  end.

(** Every character of [s] is a digit. *)
Fixpoint all_digits (s : string) : bool :=
  match s with
  | EmptyString => true
  | String c r => isdigit c && all_digits r
  end.

(** What is left of [s] after its leading digits. *)
Fixpoint skip_digits (s : string) : string :=
  match s with
  | EmptyString => EmptyString
  | String c r => if isdigit c then skip_digits r else s
  end.

(** The alternatives of [(mm|cm|in|px)]. *)
Definition units : list string := ["mm"; "cm"; "in"; "px"].

(** [re.match(r'^\d+(mm|cm|in|px)$', s)] finds a match: at least one
    digit, as many as there are, then a unit, then the end of the string or
    one last line feed, before which [$] matches too. *)
Definition margin_match (s : string) : bool :=
  match s with
  | EmptyString => false
  | String c _ =>
      isdigit c
      && existsb (fun u => String.eqb (skip_digits s) u
                           || String.eqb (skip_digits s) (u ++ String LF ""))
                 units
  end.

(** The values a [Dict[str, Any]] holds here. *)
Inductive Value : Type :=
| VStr (s : string)
| VInt (n : Z)
| VBool (b : bool)
| VNone.

(** [str(v)], as an f-string prints a value. *)
Definition str (v : Value) : string :=
  match v with
  | VStr s => s
  | VInt n => Py.str_of_int n
  | VBool true => "True"
  | VBool false => "False"
  | VNone => "None"
  end.

(** [v in l] for a list of strings: only an equal string is in it. *)
Definition value_in (v : Value) (l : list string) : bool :=
  match v with
  | VStr s => bool_decide (s ∈ l)
  | _ => false
  end.

End PyText.

(** ** enums.py, the remaining format and status tables *)

Module Formats.

(** [DocumentFormat.get_extensions()] *)
Definition get_extensions : gset string :=
  {[ ".md"; ".markdown"; ".pdf"; ".html"; ".htm" ]}.

(** [ext_map] of [from_extension]. *)
Definition ext_map : gmap string DocumentFormat :=
  {[ ".md" := MARKDOWN;
     ".markdown" := MARKDOWN;
     ".pdf" := PDF;
     ".html" := HTML;
     ".htm" := HTML ]}.

(** [DocumentFormat.from_extension(extension)] *)
Definition from_extension (extension : string) : DocumentFormat :=
  default MARKDOWN (ext_map !! Py.lower extension).

(** [mime_map] of [to_mime_type]. *)
Definition mime_map : gmap DocumentFormat string :=
  {[ MARKDOWN := "text/markdown";
     MD := "text/markdown";
     PDF := "application/pdf";
     HTML := "text/html";
     HTM := "text/html" ]}.

(** [DocumentFormat.to_mime_type(self)] *)
Definition to_mime_type (self : DocumentFormat) : string :=
  default "application/octet-stream" (mime_map !! self).

End Formats.

(** ** validators.py, the remaining validators *)

Module FileNames.

(** [FileValidator.validate_filename(filename)] *)
Definition validate_filename (filename : string) : Result :=
  if negb (Py.truthy filename) then (false, Some "Filename cannot be empty")
  else if PyText.contains ".." filename
          || Py.contains_char "/" filename
          || Py.contains_char "\" filename
  then (false, Some "Filename contains path traversal characters")
  else if Py.contains_char PyText.NUL filename
  then (false, Some "Filename contains null bytes")
  else if Py.len filename >? 255
  then (false, Some "Filename too long (max 255 characters)")
  else if PyText.search_dangerous filename
  then (false, Some "Filename contains potentially dangerous characters")
  else (true, None).

End FileNames.

Module TextSanitizer.

(** [TextValidator.sanitize_text(text)] *)
Definition sanitize_text (text : string) : string :=
  let text := PyText.remove_char PyText.NUL text in
  let text := PyText.replace_crlf text in
  let text := Py.replace_char PyText.CR PyText.LF text in
  text.

End TextSanitizer.

Module ConversionValidator.

(** An argument of [validate_conversion]: an enum member, which has a
    [value], or a plain string. *)
Inductive FormatArg : Type :=
| Member (f : DocumentFormat)
| Plain (s : string).

(** [x.value if hasattr(x, 'value') else str(x)] *)
Definition format_str (x : FormatArg) : string :=
  match x with
  | Member f => DocumentFormat.value f
  | Plain s => s
  end.

(** [ConversionValidator.validate_conversion(source_format, target_format)] *)
Definition validate_conversion (source_format target_format : FormatArg)
  : Result :=
  let source_norm := DocumentFormat.normalize (format_str source_format) in
  let target_norm := DocumentFormat.normalize (format_str target_format) in
  if decide (source_norm = target_norm)
  then (false, Some "Source and target formats are the same")
  else if negb (Constants.can_convert source_norm target_norm)
  then (false, Some ("Conversion from " ++ DocumentFormat.value source_norm
                     ++ " to " ++ DocumentFormat.value target_norm
                     ++ " is not supported"))
  else (true, None).

(** [valid_sizes] of [validate_conversion_options]. *)
Definition valid_sizes : list string := ["A4"; "A3"; "Letter"; "Legal"].

(** [ConversionValidator.validate_conversion_options(options)] *)
Definition validate_conversion_options (options : gmap string PyText.Value)
  : Result :=
  if bool_decide (options = ∅) then (true, None)
  else
    match
      match options !! "page_size" with
      | Some v =>
          if negb (PyText.value_in v valid_sizes)
          then Some ("Invalid page size: " ++ PyText.str v)
          else None
      | None => None
      end
    with
    | Some e => (false, Some e)
    | None =>
        match options !! "margin" with
        | Some (PyText.VStr margin) =>
            if negb (PyText.margin_match margin)
            then (false, Some ("Invalid margin format: " ++ margin
                               ++ " (use format like '20mm')"))
            else (true, None)
        | Some _ => (false, Some "Margin must be a string (e.g., '20mm')")
        | None => (true, None)
        end
    end.

End ConversionValidator.

(** ** models.py, the field validators, [FileInfo] and [TaskStats] *)

Module Models.

(** [validate_file_size(v)] of models.py; [inl] stands for [ValueError]. *)
Definition validate_file_size (v : Z) : string + Z :=
  if v <=? 0 then inl "File size must be positive"
  else if v >? Constants.MAX_FILE_SIZE
  then inl ("File size exceeds maximum of "
            ++ Py.str_of_int Constants.MAX_FILE_SIZE ++ " bytes")
  else inr v.

(** [validate_file_path(v)] *)
Definition validate_file_path (v : string) : string + string :=
  let path := PosixPath.Path v in
  if PosixPath.is_absolute path then inl "File path must be relative"
  else if bool_decide (".." ∈ PosixPath.parts path)
  then inl "File path cannot contain parent directory references"
  else inr v.

End Models.

Module FileInfo.

(** [class FileInfo(BaseModel)] *)
Record t : Type := {
  id : UUID;
  filename : string;
  format : DocumentFormat;
  size : Z;
  path : string;
  content_hash : string;
  mime_type : string;
  encoding : string;
  created_at : datetime;
  updated_at : datetime;
  metadata : gmap string PyText.Value
}.

(** [invalid_chars] of [validate_filename]. *)
Definition invalid_chars : list string :=
  ["/"; "\"; String PyText.NUL ""; ".."].

(** [FileInfo.validate_filename(v)]: the loop raises at the first entry of
    [invalid_chars] found in [v]. *)
Definition validate_filename (v : string) : string + string :=
  if negb (Py.truthy v) || negb (String.eqb (PyText.strip v) v)
  then inl "Filename cannot be empty or contain leading/trailing spaces"
  else
    match List.find (fun char => PyText.contains char v) invalid_chars with
    | Some char => inl ("Filename cannot contain " ++ char)
    | None => inr v
    end.

(** [FileInfo.normalize_format(v)], which runs before the field is
    validated: a string, and an enum member is one, is normalized. *)
Definition normalize_format (v : ConversionValidator.FormatArg)
  : DocumentFormat :=
  DocumentFormat.normalize (ConversionValidator.format_str v).

(** [Field(min_length=lo, max_length=hi)] on a string. *)
Definition field_length (lo hi : Z) (v : string) : string + string :=
  if Py.len v <? lo then inl "String should have at least the minimum length"
  else if Py.len v >? hi then inl "String should have at most the maximum length"
  else inr v.

(** The keyword arguments of [FileInfo(...)]: the six required fields, and
    [None] for an optional one that is left out. *)
Record Kwargs : Type := {
  kw_id : option UUID;
  kw_filename : string;
  kw_format : ConversionValidator.FormatArg;
  kw_size : Z;
  kw_path : string;
  kw_content_hash : string;
  kw_mime_type : string;
  kw_encoding : option string;
  kw_created_at : option datetime;
  kw_updated_at : option datetime;
  kw_metadata : option (gmap string PyText.Value)
}.

(** The constructor [FileInfo] on keyword arguments [kw]: [inl] stands for
    pydantic's [ValidationError]; [fresh] and [now] are what the default
    factories [uuid4] and [datetime.utcnow] return. The length bounds of
    [filename] are checked before its validator runs. *)
Definition new (fresh : UUID) (now : datetime) (kw : Kwargs) : string + t :=
  match field_length 1 255 (kw_filename kw) with
  | inl e => inl e
  | inr name0 =>
      match validate_filename name0 with
      | inl e => inl e
      | inr name =>
          match Models.validate_file_size (kw_size kw) with
          | inl e => inl e
          | inr sz =>
              match Models.validate_file_path (kw_path kw) with
              | inl e => inl e
              | inr pth =>
                  match field_length 32 64 (kw_content_hash kw) with
                  | inl e => inl e
                  | inr hash =>
                      inr {| id := default fresh (kw_id kw);
                             filename := name;
                             format := normalize_format (kw_format kw);
                             size := sz;
                             path := pth;
                             content_hash := hash;
                             mime_type := kw_mime_type kw;
                             encoding := default "utf-8" (kw_encoding kw);
                             created_at := default now (kw_created_at kw);
                             updated_at := default now (kw_updated_at kw);
                             metadata := default ∅ (kw_metadata kw) |}
                  end
              end
          end
      end
  end.

(** [get_full_path(base_dir)], for a relative [path]: the components of
    [base_dir] followed by those of [path]. *)
Definition get_full_path (self : t) (base_dir : PosixPath.t) : PosixPath.t :=
  let p := PosixPath.Path (path self) in
  if PosixPath.is_absolute p then p
  else PosixPath.mk (PosixPath.root base_dir)
                    (PosixPath.tail base_dir ++ PosixPath.tail p).

End FileInfo.

Module TaskStats.

(** [class TaskStats(BaseModel)] *)
Record t : Type := {
  total_tasks : Z;
  active_tasks : Z;
  queued_tasks : Z;
  completed_tasks : Z;
  failed_tasks : Z;
  avg_processing_time : Q;
  total_files_processed : Z;
  total_bytes_processed : Z;
  cache_hits : Z;
  cache_misses : Z;
  last_task_at : option datetime;
  uptime_seconds : Q
}.

(** The [Field(ge=0)] constraints the constructor checks. *)
Definition validated (s : t) : Prop :=
  0 <= total_tasks s /\ 0 <= active_tasks s /\ 0 <= queued_tasks s
  /\ 0 <= completed_tasks s /\ 0 <= failed_tasks s
  /\ (0 <= avg_processing_time s)%Q
  /\ 0 <= total_files_processed s /\ 0 <= total_bytes_processed s
  /\ 0 <= cache_hits s /\ 0 <= cache_misses s
  /\ (0 <= uptime_seconds s)%Q.

(** [a / total] guarded by [total == 0]; the quotient is exact, where
    Python rounds it to the nearest float. *)
Definition ratio (a total : Z) : Q :=
  if total =? 0 then 0%Q else (inject_Z a / inject_Z total)%Q.

(** [cache_hit_rate] *)
Definition cache_hit_rate (self : t) : Q :=
  ratio (cache_hits self) (cache_hits self + cache_misses self).

(** [success_rate] *)
Definition success_rate (self : t) : Q :=
  ratio (completed_tasks self) (completed_tasks self + failed_tasks self).

End TaskStats.

(** ** core/exceptions.py *)

Module Exceptions.

(** One hexadecimal digit, lower case. *)
Definition hex_digit (n : N) : ascii :=
  default "0"%char (String.get (N.to_nat n) "0123456789abcdef").

(** The [k] low hexadecimal digits of [n], most significant first. *)
Fixpoint hex_fixed (k : nat) (n : N) : string :=
  match k with
  | O => EmptyString
  | S k' => hex_fixed k' (n / 16) ++ String (hex_digit (n mod 16)) EmptyString
  end.

(** [str(u)] for a [UUID]: 32 hexadecimal digits in groups of 8, 4, 4, 4
    and 12. *)
Definition uuid_str (u : UUID) : string :=
  let hex := hex_fixed 32 u in
  substring 0 8 hex ++ "-" ++ substring 8 4 hex ++ "-"
  ++ substring 12 4 hex ++ "-" ++ substring 16 4 hex ++ "-"
  ++ substring 20 12 hex.

(** [class DoctorException(Exception)] *)
Record DoctorException : Type := {
  message : string;
  error_code : string;
  details : gmap string PyText.Value;
  status_code : Z
}.

(** [DoctorException.__init__]: [error_code or "internal_error"] and
    [details or {}]. *)
Definition init (msg : string) (code : option string)
           (det : option (gmap string PyText.Value)) (status : Z)
  : DoctorException :=
  {| message := msg;
     error_code := match code with
                   | Some c => if Py.truthy c then c else "internal_error"
                   | None => "internal_error"
                   end;
     details := default ∅ det;
     status_code := status |}.

(** [DoctorException(message)], with the default arguments. *)
Definition DoctorException_ (msg : string) : DoctorException :=
  init msg None None 500.

(** A value of [to_dict()]. *)
Inductive Payload : Type :=
| PStr (s : string)
| PInt (n : Z)
| PDict (d : gmap string PyText.Value).

(** [to_dict()] *)
Definition to_dict (self : DoctorException) : gmap string Payload :=
  {[ "error_code" := PStr (error_code self);
     "message" := PStr (message self);
     "details" := PDict (details self);
     "status_code" := PInt (status_code self) ]}.

(** [ValidationError(message, field, **kwargs)] *)
Definition ValidationError (msg : string) (field : option string)
           (kwargs : gmap string PyText.Value) : DoctorException :=
  let det : gmap string PyText.Value :=
    match field with
    | Some f => if Py.truthy f then {[ "field" := PyText.VStr f ]} else ∅
    | None => ∅
    end in
  init msg (Some "invalid_file_format") (Some (kwargs ∪ det)) 400.

(** [FileNotFoundError(file_id, filename)]; a [UUID] is always true. *)
Definition FileNotFoundError (file_id : option UUID) (filename : option string)
  : DoctorException :=
  let '(msg, det) :=
    match file_id with
    | Some u =>
        ("File with ID " ++ uuid_str u ++ " not found",
         ({[ "file_id" := PyText.VStr (uuid_str u) ]} : gmap string PyText.Value))
    | None =>
        match filename with
        | Some f =>
            if Py.truthy f
            then ("File '" ++ f ++ "' not found",
                  {[ "filename" := PyText.VStr f ]})
            else ("File not found", ∅)
        | None => ("File not found", ∅)
        end
    end in
  init msg (Some "file_not_found") (Some det) 404.

(** [FileTooLargeError(size, max_size)] *)
Definition FileTooLargeError (size max_size : Z) : DoctorException :=
  init ("File size " ++ Py.str_of_int size ++ " bytes exceeds maximum of "
        ++ Py.str_of_int max_size ++ " bytes")
       (Some "file_too_large")
       (Some {[ "size" := PyText.VInt size; "max_size" := PyText.VInt max_size ]})
       413.

(** [FileCorruptedError(filename, reason)] *)
Definition FileCorruptedError (filename reason : string) : DoctorException :=
  init ("File '" ++ filename ++ "' is corrupted: " ++ reason)
       (Some "file_corrupted")
       (Some {[ "filename" := PyText.VStr filename;
                "reason" := PyText.VStr reason ]})
       422.

(** [TaskNotFoundError(task_id)] *)
Definition TaskNotFoundError (task_id : UUID) : DoctorException :=
  init ("Task with ID " ++ uuid_str task_id ++ " not found")
       (Some "task_not_found")
       (Some {[ "task_id" := PyText.VStr (uuid_str task_id) ]})
       404.

(** [TaskExpiredError(task_id)] *)
Definition TaskExpiredError (task_id : UUID) : DoctorException :=
  init ("Task with ID " ++ uuid_str task_id ++ " has expired")
       (Some "task_expired")
       (Some {[ "task_id" := PyText.VStr (uuid_str task_id) ]})
       410.

(** [TaskLimitExceededError(current_count, max_count)] *)
Definition TaskLimitExceededError (current_count max_count : Z)
  : DoctorException :=
  init ("Task limit exceeded: " ++ Py.str_of_int current_count ++ "/"
        ++ Py.str_of_int max_count ++ " tasks active")
       (Some "task_limit_exceeded")
       (Some {[ "current_count" := PyText.VInt current_count;
                "max_count" := PyText.VInt max_count ]})
       429.

(** [TaskTimeoutError(task_id, timeout)] *)
Definition TaskTimeoutError (task_id : UUID) (timeout : Z) : DoctorException :=
  init ("Task " ++ uuid_str task_id ++ " timed out after "
        ++ Py.str_of_int timeout ++ " seconds")
       (Some "task_timeout")
       (Some {[ "task_id" := PyText.VStr (uuid_str task_id);
                "timeout" := PyText.VInt timeout ]})
       408.

(** [ConversionFailedError(source_format, target_format, reason)] *)
Definition ConversionFailedError (source_format target_format reason : string)
  : DoctorException :=
  init ("Conversion from " ++ source_format ++ " to " ++ target_format
        ++ " failed: " ++ reason)
       (Some "conversion_failed")
       (Some {[ "source_format" := PyText.VStr source_format;
                "target_format" := PyText.VStr target_format;
                "reason" := PyText.VStr reason ]})
       500.

(** [UnsupportedConversionError(source_format, target_format)] *)
Definition UnsupportedConversionError (source_format target_format : string)
  : DoctorException :=
  init ("Conversion from " ++ source_format ++ " to " ++ target_format
        ++ " is not supported")
       (Some "unsupported_conversion")
       (Some {[ "source_format" := PyText.VStr source_format;
                "target_format" := PyText.VStr target_format ]})
       400.

(** [InvalidOptionsError(message, option_name)] *)
Definition InvalidOptionsError (msg : string) (option_name : option string)
  : DoctorException :=
  let det : gmap string PyText.Value :=
    match option_name with
    | Some o => if Py.truthy o then {[ "option_name" := PyText.VStr o ]} else ∅
    | None => ∅
    end in
  init ("Invalid conversion options: " ++ msg)
       (Some "invalid_options") (Some det) 400.

(** [StorageError(message, operation)] *)
Definition StorageError (msg operation : string) : DoctorException :=
  init ("Storage error during " ++ operation ++ ": " ++ msg)
       (Some "storage_error")
       (Some {[ "operation" := PyText.VStr operation ]})
       507.

(** [MemoryLimitError(current_usage, max_usage)] *)
Definition MemoryLimitError (current_usage max_usage : Z) : DoctorException :=
  init ("Memory limit exceeded: " ++ Py.str_of_int current_usage ++ " > "
        ++ Py.str_of_int max_usage ++ " bytes")
       (Some "memory_limit")
       (Some {[ "current_usage" := PyText.VInt current_usage;
                "max_usage" := PyText.VInt max_usage ]})
       507.

(** [ServiceUnavailableError(reason)] *)
Definition ServiceUnavailableError (reason : string) : DoctorException :=
  init ("Service unavailable: " ++ reason)
       (Some "service_unavailable")
       (Some {[ "reason" := PyText.VStr reason ]})
       503.

(** The error code of an exception is the value of a member of [ErrorCode],
    and its status code is that member's HTTP status. *)
Definition consistent (e : DoctorException) : Prop :=
  exists c, ErrorCode.of_value (error_code e) = Some c
            /\ status_code e = ErrorCodeStatus.to_http_status c.

End Exceptions.

(** ** validators.py, the content hash *)

Module Hashing.

Section WithHashlib.

(** [hashlib]: the state of a hash object, the fresh one [hashlib.sha256()]
    returns, [update] and [hexdigest]. *)
Variable HashState : Type.
Variable sha256 : HashState.
Variable update : HashState -> list byte -> HashState.
Variable hexdigest : HashState -> string.

(** The loop [for byte_block in iter(lambda: f.read(4096), b""):
    sha256_hash.update(byte_block)] over what is still unread of the file:
    it stops at the first empty read. [fuel] bounds the number of reads. *)
Fixpoint read_blocks (fuel : nat) (h : HashState) (unread : list byte)
  : option HashState :=
  match fuel with
  | O => None
  | S fuel' =>
      match take 4096 unread with
      | [] => Some h
      | byte_block => read_blocks fuel' (update h byte_block) (drop 4096 unread)
      end
  end.

(** [FileValidator.calculate_hash(file_path)] on the content of the file. *)
Definition calculate_hash (fuel : nat) (content : list byte) : option string :=
  hexdigest <$> read_blocks fuel sha256 content.

End WithHashlib.

(** A hash object that keeps all it was fed, and prints its length: enough
    to run [calculate_hash]. *)
Definition log_update (h : list byte) (block : list byte) : list byte :=
  h ++ block.

Definition log_hexdigest (h : list byte) : string :=
  Py.str_of_int (Z.of_nat (length h)).

End Hashing.

(** ** Sample values *)

(** [FileInfo(filename="document.md", format="md", size=1024,
    path="uploads/2024/01/document.md", content_hash=..., mime_type=...)],
    the hash being 64 characters long. *)
Definition example_upload : FileInfo.Kwargs :=
  {| FileInfo.kw_id := None;
     FileInfo.kw_filename := "document.md";
     FileInfo.kw_format := ConversionValidator.Plain "md";
     FileInfo.kw_size := 1024;
     FileInfo.kw_path := "uploads/2024/01/document.md";
     FileInfo.kw_content_hash :=
       "e3b0c44298fc1c149afbf4c8996fb92427ae41e4649b934ca495991b7852b855";
     FileInfo.kw_mime_type := "text/markdown";
     FileInfo.kw_encoding := None;
     FileInfo.kw_created_at := None;
     FileInfo.kw_updated_at := None;
     FileInfo.kw_metadata := None |}.

(** What that call returns when [uuid4()] gives 5 and the clock reads
    1000. *)
Definition example_file : FileInfo.t :=
  {| FileInfo.id := 5%N;
     FileInfo.filename := "document.md";
     FileInfo.format := MARKDOWN;
     FileInfo.size := 1024;
     FileInfo.path := "uploads/2024/01/document.md";
     FileInfo.content_hash :=
       "e3b0c44298fc1c149afbf4c8996fb92427ae41e4649b934ca495991b7852b855";
     FileInfo.mime_type := "text/markdown";
     FileInfo.encoding := "utf-8";
     FileInfo.created_at := 1000;
     FileInfo.updated_at := 1000;
     FileInfo.metadata := ∅ |}.

(** [TaskStats(completed_tasks=3, failed_tasks=1, cache_hits=1,
    cache_misses=3)] *)
Definition example_stats : TaskStats.t :=
  {| TaskStats.total_tasks := 0;
     TaskStats.active_tasks := 0;
     TaskStats.queued_tasks := 0;
     TaskStats.completed_tasks := 3;
     TaskStats.failed_tasks := 1;
     TaskStats.avg_processing_time := 0%Q;
     TaskStats.total_files_processed := 0;
     TaskStats.total_bytes_processed := 0;
     TaskStats.cache_hits := 1;
     TaskStats.cache_misses := 3;
     TaskStats.last_task_at := None;
     TaskStats.uptime_seconds := 0%Q |}.

(** * Properties *)

(** A decidable proposition about concrete values, settled by evaluating
    its decision procedure. *)
Ltac by_computation := apply (bool_decide_unpack _); vm_compute; exact I.

(** ** Format and conversion policy *)

Section FormatPolicy.

Import DocumentFormat.

Lemma normalize_unknown (x : string) :
  Py.lower x ∉ aliases -> normalize x = MARKDOWN.
Proof.
  intros Hx. unfold normalize, format_map.
  rewrite !lookup_insert_ne, lookup_singleton_ne; [done | ..];
    intros E; apply Hx; rewrite <- E; by_computation.
Qed.

Lemma normalize_known (x k : string) :
  Py.lower x = k -> normalize x = default MARKDOWN (format_map !! k).
Proof. by intros <-. Qed.

(** [normalize] only ever returns one of the three canonical members. *)
Lemma normalize_canonical (x : string) :
  normalize x = MARKDOWN \/ normalize x = PDF \/ normalize x = HTML.
Proof.
  destruct (decide (Py.lower x ∈ aliases)) as [Hin | Hout].
  - unfold aliases in Hin.
    repeat (apply elem_of_cons in Hin as [Hk | Hin];
            [rewrite (normalize_known _ _ Hk); vm_compute; tauto | ]).
    by apply elem_of_nil in Hin.
  - left. by apply normalize_unknown.
Qed.

Lemma can_convert_cases (f g : DocumentFormat) :
  Constants.can_convert f g =
  negb (bool_decide (normalize (value f) = normalize (value g))).
Proof. by destruct f, g. Qed.

End FormatPolicy.

(** C3. [DocumentFormat.normalize] resolves the aliases whatever their
    casing ([md] to Markdown, [htm] to HTML, [markdown], [pdf] and [html]
    to their members; two strings with the same lower-casing normalize
    alike), returns Markdown for every other string, and is idempotent:
    normalizing the value of a normalized format gives that format. *)
Theorem normalize_spec (x : string) :
  (Py.lower x = "markdown" -> DocumentFormat.normalize x = MARKDOWN) /\
  (Py.lower x = "md" -> DocumentFormat.normalize x = MARKDOWN) /\
  (Py.lower x = "pdf" -> DocumentFormat.normalize x = PDF) /\
  (Py.lower x = "html" -> DocumentFormat.normalize x = HTML) /\
  (Py.lower x = "htm" -> DocumentFormat.normalize x = HTML) /\
  (forall y, Py.lower x = Py.lower y ->
             DocumentFormat.normalize x = DocumentFormat.normalize y) /\
  (Py.lower x ∉ aliases -> DocumentFormat.normalize x = MARKDOWN) /\
  DocumentFormat.normalize (DocumentFormat.value (DocumentFormat.normalize x))
  = DocumentFormat.normalize x.
Proof.
  repeat split;
    try (intros Hk; by rewrite (normalize_known _ _ Hk)).
  - intros y Hxy. unfold DocumentFormat.normalize. by rewrite Hxy.
  - apply normalize_unknown.
  - destruct (normalize_canonical x) as [-> | [-> | ->]]; by vm_compute.
Qed.

Lemma normalize_spec_witness :
  DocumentFormat.normalize "HtM" = HTML /\
  DocumentFormat.normalize "docx" = MARKDOWN.
Proof.
  destruct (normalize_spec "HtM") as (_ & _ & _ & _ & Hhtm & _).
  destruct (normalize_spec "docx") as (_ & _ & _ & _ & _ & _ & Hother & _).
  split.
  - apply Hhtm. reflexivity.
  - apply Hother. by_computation.
Defined.

(** C2. [can_convert(f, f)] is false for every format, and so is
    [can_convert(f, g)] when the two normalize to the same member;
    [can_convert] is symmetric; and two formats that normalize to distinct
    members of the triangle Markdown, PDF, HTML convert in both
    directions. *)
Theorem can_convert_spec (f g : DocumentFormat) :
  Constants.can_convert f f = false /\
  (DocumentFormat.normalize (DocumentFormat.value f)
   = DocumentFormat.normalize (DocumentFormat.value g) ->
   Constants.can_convert f g = false) /\
  Constants.can_convert f g = Constants.can_convert g f /\
  (Constants.can_convert f g = true <-> Constants.can_convert g f = true) /\
  (DocumentFormat.normalize (DocumentFormat.value f)
   <> DocumentFormat.normalize (DocumentFormat.value g) ->
   Constants.can_convert f g = true /\ Constants.can_convert g f = true).
Proof.
  rewrite !can_convert_cases.
  repeat split; intros; repeat case_bool_decide; simpl in *; congruence.
Qed.

Lemma can_convert_spec_witness :
  Constants.can_convert MD HTM = true /\ Constants.can_convert HTM MD = true.
Proof.
  destruct (can_convert_spec MD HTM) as (_ & _ & _ & _ & H).
  apply H. vm_compute. discriminate.
Defined.

(** C6. [ErrorCode.to_http_status] is total over the enumeration: every
    error code has an entry of its own in [status_map] (none is left to the
    fall-through default), and its status is one of 400, 404, 408, 410,
    413, 422, 429, 500, 503, 507. *)
Theorem to_http_status_total (e : ErrorCode) :
  e ∈ ErrorCode.members /\
  (exists n, ErrorCodeStatus.status_map !! e = Some n
             /\ ErrorCodeStatus.to_http_status e = n) /\
  ErrorCodeStatus.to_http_status e ∈ ErrorCodeStatus.status_classes.
Proof.
  destruct e;
    (split; [ by_computation | split; [ | by_computation ] ]);
    eexists; split; vm_compute; reflexivity.
Qed.

(** ** Input validators *)

Section SizeCheck.

Import FileValidator.

(** The ceiling [validate_file_size] picks for a source. *)
Lemma max_size_lookup (source : string) :
  default Constants.MAX_FILE_SIZE (max_sizes !! source) =
  if decide (source = "text") then Constants.MAX_TEXT_SIZE
  else if decide (source = "url") then Constants.MAX_URL_SIZE
  else Constants.MAX_FILE_SIZE.
Proof.
  repeat case_decide; subst; try done.
  destruct (decide (source = "file")) as [-> | Hfile]; [done | ].
  unfold max_sizes.
  by rewrite !lookup_insert_ne, lookup_singleton_ne.
Qed.

Lemma validate_file_size_valid (size : Z) (source : string) :
  fst (validate_file_size size source) = true <->
  0 < size <= default Constants.MAX_FILE_SIZE (max_sizes !! source).
Proof.
  unfold validate_file_size.
  destruct (Z.leb_spec size 0) as [Hle | Hgt]; simpl; [ split; [done | lia] | ].
  rewrite Z.gtb_ltb.
  destruct (Z.ltb_spec (default Constants.MAX_FILE_SIZE (max_sizes !! source)) size);
    simpl; split; (done || lia).
Qed.

End SizeCheck.

(** C4, as the code has it. [validate_file_size] rejects every non-positive
    size and accepts a positive one exactly when it is at most the ceiling of
    its source: 524288000 bytes (500 MiB) for [file] and for any unknown
    source, 10485760 (10 MiB) for [text], 104857600 (100 MiB) for [url]. The
    sizes at the limit, 524288000 for [file] and 10485760 for [text], are
    accepted and one byte more is rejected; 500000000 is an accepted [file]
    size below the limit. *)
Theorem validate_file_size_spec (size : Z) (source : string) :
  (size <= 0 -> fst (FileValidator.validate_file_size size source) = false) /\
  (source = "text" ->
   (fst (FileValidator.validate_file_size size source) = true
    <-> 0 < size <= 10485760)) /\
  (source = "url" ->
   (fst (FileValidator.validate_file_size size source) = true
    <-> 0 < size <= 104857600)) /\
  (source <> "text" -> source <> "url" ->
   (fst (FileValidator.validate_file_size size source) = true
    <-> 0 < size <= 524288000)) /\
  FileValidator.validate_file_size 524288000 "file" = (true, None) /\
  fst (FileValidator.validate_file_size 524288001 "file") = false /\
  FileValidator.validate_file_size 10485760 "text" = (true, None) /\
  fst (FileValidator.validate_file_size 10485761 "text") = false /\
  FileValidator.validate_file_size 500000000 "file" = (true, None).
Proof.
  assert (Hlimit := max_size_lookup source).
  assert (Hvalid := validate_file_size_valid size source).
  split; [ | split; [ | split; [ | split ] ] ].
  - intros Hle.
    destruct (fst (FileValidator.validate_file_size size source)); [ | done ].
    assert (0 < size) by (by apply Hvalid). lia.
  - intros ->. by rewrite Hvalid, Hlimit.
  - intros ->. by rewrite Hvalid, Hlimit.
  - intros Htext Hurl. rewrite Hvalid, Hlimit.
    by rewrite !decide_False.
  - by vm_compute.
Qed.

Lemma validate_file_size_spec_witness :
  fst (FileValidator.validate_file_size 104857600 "url") = true /\
  fst (FileValidator.validate_file_size 0 "file") = false /\
  fst (FileValidator.validate_file_size 524288000 "upload") = true.
Proof.
  destruct (validate_file_size_spec 104857600 "url") as (_ & _ & Hurl & _).
  destruct (validate_file_size_spec 0 "file") as (Hneg & _).
  destruct (validate_file_size_spec 524288000 "upload") as (_ & _ & _ & Hother & _).
  split; [ | split ].
  - apply Hurl; [ reflexivity | lia ].
  - apply Hneg. lia.
  - apply Hother; [ discriminate | discriminate | lia ].
Defined.

(** C4 as stated fails: with 500000000 taken as the [file] limit, the size
    one byte above it is still accepted. *)
Lemma validate_file_size_500000001_accepted :
  FileValidator.validate_file_size 500000001 "file" = (true, None).
Proof. by vm_compute. Qed.

(** C10. A [max_size] of 0 switches the size check off: a non-empty text
    without a null character is valid under [max_size=0], whatever its
    length in bytes, exactly as when [max_size] is left out. *)
Theorem validate_text_input_zero_limit (text : string) :
  text <> "" ->
  Py.contains_char "000" text = false ->
  TextValidator.validate_text_input text (Some 0) = (true, None) /\
  TextValidator.validate_text_input text (Some 0)
  = TextValidator.validate_text_input text None.
Proof.
  intros Hne Hnul. unfold TextValidator.validate_text_input.
  destruct text as [ | c r]; [done | ].
  simpl Py.truthy. simpl negb. cbv iota. rewrite Hnul. by simpl.
Qed.

Lemma validate_text_input_zero_limit_witness :
  TextValidator.validate_text_input "Hello World" (Some 0) = (true, None) /\
  TextValidator.validate_text_input "Hello World" (Some 0)
  = TextValidator.validate_text_input "Hello World" None.
Proof.
  apply (validate_text_input_zero_limit "Hello World");
    [ discriminate | reflexivity ].
Defined.

(** With a positive limit the same text can be rejected: the check is
    really off at 0, not merely passed. *)
Example validate_text_input_positive_limit :
  TextValidator.validate_text_input "Hello World" (Some 5)
  = (false, Some "Text size 11 bytes exceeds maximum of 5 bytes").
Proof. by vm_compute. Qed.

Section QuickCheck.

Import FileValidator.

(** Latin-1 decodes every byte string, so the inner [except] of
    [quick_format_check] is never taken. *)
Lemma decode_latin1_total (bs : list byte) : is_Some (Py.decode_latin1 bs).
Proof. unfold Py.decode_latin1. eauto. Qed.

Lemma text_like_not_pdf (fmt : DocumentFormat) :
  fmt ∈ [MARKDOWN; MD; HTML; HTM] ->
  fmt <> PDF /\ bool_decide (fmt ∈ [HTML; HTM; MARKDOWN; MD]) = true.
Proof.
  intros H. apply (bool_decide_pack _) in H.
  destruct fmt; split; try done; by_computation.
Qed.

End QuickCheck.

(** C8. On a readable file claimed as PDF, [quick_format_check] rejects
    when the first 1024 bytes do not start with [%PDF]; on one claimed as a
    text-like format it rejects exactly when the first 1024 bytes hold a
    null byte or decode neither as UTF-8 nor as Latin-1; and when opening
    or reading the file fails it answers valid. *)
Theorem quick_format_check_spec (content : list byte) (fmt : DocumentFormat) :
  (Py.startswith FileValidator.pdf_magic (take 1024 content) = false ->
   fst (FileValidator.quick_format_check (FileValidator.Holding content) PDF)
   = false) /\
  (fmt ∈ [MARKDOWN; MD; HTML; HTM] ->
   (fst (FileValidator.quick_format_check (FileValidator.Holding content) fmt)
    = false
    <-> Py.contains_byte x00 (take 1024 content) = true
        \/ (Py.decode_utf8 (take 1024 content) = None
            /\ Py.decode_latin1 (take 1024 content) = None))) /\
  FileValidator.quick_format_check FileValidator.Failing fmt = (true, None).
Proof.
  unfold FileValidator.quick_format_check.
  set (header := take 1024 content).
  split; [ | split ]; [ | | done ].
  - intros Hmagic. rewrite Hmagic. by rewrite decide_True.
  - intros Htext. destruct (text_like_not_pdf fmt Htext) as [Hpdf Hin].
    rewrite decide_False, Hin by done.
    destruct (Py.contains_byte x00 header); simpl; [ tauto | ].
    destruct (Py.decode_utf8 header); simpl;
      split; try done; intros [ | [ ] ]; done.
Qed.

Lemma quick_format_check_spec_witness :
  fst (FileValidator.quick_format_check
         (FileValidator.Holding [x4e; x6f; x74; x20; x50; x44; x46]) PDF) = false /\
  fst (FileValidator.quick_format_check
         (FileValidator.Holding [x61; x00; x62]) MARKDOWN) = false.
Proof.
  destruct (quick_format_check_spec [x4e; x6f; x74; x20; x50; x44; x46] PDF)
    as (Hpdf & _ & _).
  destruct (quick_format_check_spec [x61; x00; x62] MARKDOWN)
    as (_ & Htext & _).
  split.
  - apply Hpdf. reflexivity.
  - apply (proj2 (Htext ltac:(by_computation))). left. reflexivity.
Defined.

(** ** Path sanitization *)

Section PathSanitization.

Import PosixPath.

Local Arguments Ascii.eqb : simpl never.

Lemma contains_char_cons (c d : ascii) (r : string) :
  Py.contains_char c (String d r) = false
  <-> c <> d /\ Py.contains_char c r = false.
Proof.
  simpl. destruct (Ascii.eqb_spec c d); split; try done; intros []; done.
Qed.

Lemma contains_char_app (c : ascii) (s1 s2 : string) :
  Py.contains_char c (s1 ++ s2)
  = Py.contains_char c s1 || Py.contains_char c s2.
Proof.
  induction s1 as [ | d r IH]; simpl; [done | ].
  by destruct (Ascii.eqb c d).
Qed.

Lemma replace_char_absent (a b : ascii) (s : string) :
  Py.contains_char a s = false -> Py.replace_char a b s = s.
Proof.
  induction s as [ | c r IH]; [done | ].
  intros [Hc Hr]%contains_char_cons. simpl.
  rewrite (proj2 (Ascii.eqb_neq a c) Hc). by rewrite IH.
Qed.

(** A component of [split s] is made of characters of [s]. *)
Lemma split_components (c : ascii) (s x : string) :
  Py.contains_char c s = false -> x ∈ split s -> Py.contains_char c x = false.
Proof.
  revert x. induction s as [ | a r IH]; intros x.
  - by intros _ ->%list_elem_of_singleton.
  - intros [Hca Hr]%contains_char_cons. simpl.
    destruct (Ascii.eqb "/" a).
    + intros [-> | Hx]%elem_of_cons; [done | by apply IH].
    + destruct (split r) as [ | h t].
      * intros ->%list_elem_of_singleton. by apply contains_char_cons.
      * intros [-> | Hx]%elem_of_cons.
        -- apply contains_char_cons. split; [done | ]. apply IH; [done | by left].
        -- apply IH; [done | by right].
Qed.

(** No component of [split s] holds a slash. *)
Lemma split_no_sep (s x : string) :
  x ∈ split s -> Py.contains_char "/" x = false.
Proof.
  revert x. induction s as [ | a r IH]; intros x; simpl.
  - by intros ->%list_elem_of_singleton.
  - destruct (Ascii.eqb_spec "/" a) as [ | Hne].
    + intros [-> | Hx]%elem_of_cons; [done | by apply IH].
    + destruct (split r) as [ | h t].
      * intros ->%list_elem_of_singleton. by apply contains_char_cons.
      * intros [-> | Hx]%elem_of_cons.
        -- apply contains_char_cons. split; [done | ]. apply IH. by left.
        -- apply IH. by right.
Qed.

Lemma split_single (x : string) :
  Py.contains_char "/" x = false -> split x = [x].
Proof.
  induction x as [ | a r IH]; [done | ].
  intros [Ha Hr]%contains_char_cons. simpl.
  rewrite (proj2 (Ascii.eqb_neq "/" a) Ha). by rewrite IH.
Qed.

Lemma split_app_sep (x r : string) :
  Py.contains_char "/" x = false -> split (x ++ String "/" r) = x :: split r.
Proof.
  induction x as [ | a x' IH]; [done | ].
  intros [Ha Hr]%contains_char_cons. simpl.
  rewrite (proj2 (Ascii.eqb_neq "/" a) Ha). by rewrite IH.
Qed.

(** Splitting undoes joining, for components without a slash. *)
Lemma split_join (l : list string) :
  l <> [] ->
  Forall (fun x => Py.contains_char "/" x = false) l ->
  split (join l) = l.
Proof.
  induction l as [ | x l IH]; [done | ].
  intros _ [Hx Hl]%Forall_cons. destruct l as [ | y l].
  - by apply split_single.
  - change (join (x :: y :: l)) with (x ++ String "/" (join (y :: l))).
    rewrite split_app_sep by done. by rewrite IH.
Qed.

Lemma join_absent (c : ascii) (l : list string) :
  c <> "/"%char ->
  Forall (fun x => Py.contains_char c x = false) l ->
  Py.contains_char c (join l) = false.
Proof.
  intros Hc. induction l as [ | x l IH]; [done | ].
  intros [Hx Hl]%Forall_cons. destruct l as [ | y l]; [done | ].
  change (join (x :: y :: l)) with (x ++ String "/" (join (y :: l))).
  rewrite contains_char_app, Hx. apply contains_char_cons.
  split; [done | by apply IH].
Qed.

Lemma splitroot_rel (c : ascii) (p : string) :
  Py.contains_char c p = false ->
  Py.contains_char c (snd (splitroot p)) = false.
Proof.
  unfold splitroot. intros Hp.
  destruct p as [ | c1 p1]; [done | ].
  destruct (Ascii.eqb "/" c1); simpl; [ | done ].
  apply contains_char_cons in Hp as [_ Hp1].
  destruct p1 as [ | c2 p2]; [done | ].
  destruct (Ascii.eqb "/" c2); simpl; [ | done ].
  pose proof Hp1 as [_ Hp2]%contains_char_cons.
  destruct p2 as [ | c3 p3]; [done | ].
  by destruct (Ascii.eqb "/" c3).
Qed.

Lemma filter_all {A} (P : A -> Prop) `{!forall x, Decision (P x)} (l : list A) :
  Forall P l -> filter P l = l.
Proof.
  induction 1 as [ | x l Hx Hl IH]; [done | ].
  by rewrite filter_cons_True, IH.
Qed.

Lemma Path_tail (p x : string) :
  x ∈ tail (Path p) ->
  component x /\
  (Py.contains_char "\" p = false -> Py.contains_char "\" x = false).
Proof.
  unfold Path. assert (Hrel := splitroot_rel "\" p).
  destruct (splitroot p) as [root rel]. simpl in *.
  intros [[Hne Hdot] Hx]%list_elem_of_filter. split.
  - repeat split; try done. by eapply split_no_sep.
  - intros Hp. eapply split_components; [ by apply Hrel | done ].
Qed.

(** Parsing the join of kept components gives them back, without a root. *)
Lemma Path_join (l : list string) :
  l <> [] -> Forall component l -> Path (join l) = mk "" l.
Proof.
  intros Hl Hall.
  assert (Hroot : splitroot (join l) = ("", join l)).
  { destruct l as [ | x l]; [done | ].
    apply Forall_cons in Hall as [(Hne & _ & Hsep) _].
    destruct x as [ | c x]; [done | ].
    apply contains_char_cons in Hsep as [Hc _].
    assert (Hjoin : exists r, join (String c x :: l) = String c r)
      by (destruct l; simpl; eauto).
    destruct Hjoin as [r ->]. unfold splitroot.
    by rewrite (proj2 (Ascii.eqb_neq "/" c) Hc). }
  unfold Path. rewrite Hroot. f_equal.
  rewrite split_join.
  - apply filter_all. eapply Forall_impl; [done | ]. by intros x (? & ? & ?).
  - done.
  - eapply Forall_impl; [done | ]. by intros x (? & ? & ?).
Qed.

Lemma join_truthy (l : list string) :
  l <> [] -> Forall component l -> Py.truthy (join l) = true.
Proof.
  destruct l as [ | x l]; [done | ].
  intros _ [(Hne & _) _]%Forall_cons.
  destruct x; [done | ]. by destruct l.
Qed.

(** A single kept component without a backslash is a fixed point. *)
Lemma sanitize_component (x : string) :
  component x -> Py.contains_char "\" x = false ->
  FileValidator.sanitize_path x = x.
Proof.
  intros Hx Hbs.
  assert (HP : Path x = mk "" [x])
    by (apply (Path_join [x]); [done | by apply Forall_singleton]).
  unfold FileValidator.sanitize_path. rewrite !HP.
  unfold is_absolute, parts, name, str. simpl.
  destruct Hx as (Hne & _).
  case_bool_decide as Hdots; [done | ].
  destruct x; [done | ]. simpl Py.truthy. cbv iota.
  by apply replace_char_absent.
Qed.

(** So is a relative path of kept components, none of them [..]. *)
Lemma sanitize_join (l : list string) :
  l <> [] -> Forall component l -> ".." ∉ l ->
  Forall (fun x => Py.contains_char "\" x = false) l ->
  FileValidator.sanitize_path (join l) = join l.
Proof.
  intros Hl Hall Hdots Hbs. unfold FileValidator.sanitize_path.
  rewrite Path_join by done.
  unfold is_absolute, parts, str. simpl.
  change (String.append "" (join l)) with (join l).
  rewrite bool_decide_false by done.
  rewrite join_truthy by done.
  apply replace_char_absent. by apply join_absent.
Qed.

(** Where [sanitize_path] is idempotent: on every path without a
    backslash, the root and the other paths without a name apart. *)
Lemma sanitize_path_idempotent_without_backslash (p : string) :
  Py.contains_char "\" p = false ->
  FileValidator.sanitize_path p <> "" ->
  FileValidator.sanitize_path (FileValidator.sanitize_path p)
  = FileValidator.sanitize_path p.
Proof.
  intros Hbs. assert (Htail := Path_tail p).
  unfold FileValidator.sanitize_path at 1 3 4.
  destruct (is_absolute (Path p) || bool_decide (".." ∈ parts (Path p))) eqn:E.
  - unfold name. destruct (last (tail (Path p))) as [x | ] eqn:Hlast; [ | done ].
    simpl. intros _. apply last_Some_elem_of in Hlast.
    destruct (Htail x Hlast) as [Hc Hx]. by apply sanitize_component; auto.
  - apply orb_false_iff in E as [Habs Hdots].
    apply bool_decide_eq_false in Hdots.
    unfold is_absolute in Habs. unfold parts in Hdots. rewrite Habs in Hdots.
    unfold str. destruct (root (Path p)); [ | done ]. simpl.
    intros _. destruct (tail (Path p)) as [ | x l] eqn:Hl; [ by vm_compute | ].
    assert (Hall : Forall component (x :: l))
      by (apply Forall_forall; intros y Hy; by apply Htail).
    assert (Hnb : Forall (fun y => Py.contains_char "\" y = false) (x :: l))
      by (apply Forall_forall; intros y Hy; by apply Htail).
    change (String.append "" (join (x :: l))) with (join (x :: l)).
    rewrite join_truthy by done.
    rewrite replace_char_absent by (by apply join_absent).
    by apply sanitize_join.
Qed.

End PathSanitization.

(** C5, at the inputs where the code goes wrong. [sanitize_path] maps
    [uploads/../file.txt] to [file.txt] and leaves [uploads/file.txt] as it
    is, but it is not idempotent: it looks for parent references before it
    turns backslashes into slashes, so [a\..\b] becomes [a/../b], which
    still holds a parent reference and is cut to [b] by a second call, and
    [\etc\passwd] becomes the absolute [/etc/passwd]; and the root [/] has
    no name, so it becomes the empty string, which a second call turns
    into [.]. *)
Theorem sanitize_path_not_idempotent :
  FileValidator.sanitize_path "uploads/../file.txt" = "file.txt" /\
  FileValidator.sanitize_path "uploads/file.txt" = "uploads/file.txt" /\
  FileValidator.sanitize_path "a\..\b" = "a/../b" /\
  FileValidator.sanitize_path (FileValidator.sanitize_path "a\..\b") = "b" /\
  FileValidator.sanitize_path "\etc\passwd" = "/etc/passwd" /\
  FileValidator.sanitize_path (FileValidator.sanitize_path "\etc\passwd") = "passwd" /\
  FileValidator.sanitize_path "/" = "" /\
  FileValidator.sanitize_path (FileValidator.sanitize_path "/") = ".".
Proof. repeat split; by vm_compute. Qed.

(** ** URL validation *)

Section UrlRules.

Import URLValidator.

Variable urlparse : string -> string + ParseResult.
Variable IPAddress : Type.
Variable ip_address : string -> option IPAddress.
Variables is_private is_reserved is_loopback : IPAddress -> bool.

Let validate := validate_url urlparse IPAddress ip_address
                             is_private is_reserved is_loopback.

Lemma allowed_scheme (s : string) :
  s ∈ ALLOWED_SCHEMES <-> s = "http" \/ s = "https".
Proof.
  unfold ALLOWED_SCHEMES. by rewrite elem_of_union, !elem_of_singleton.
Qed.

Lemma blocked_domain (h : string) :
  h ∈ BLOCKED_DOMAINS <-> h ∈ ["localhost"; "127.0.0.1"; "0.0.0.0"; "::1"].
Proof.
  unfold BLOCKED_DOMAINS.
  rewrite !elem_of_union, !elem_of_singleton, !elem_of_cons, elem_of_nil.
  tauto.
Qed.

(** An invalid answer always carries a reason. *)
Lemma validate_url_reason (url : string) :
  fst (validate url) = false -> is_Some (snd (validate url)).
Proof.
  unfold validate, validate_url.
  repeat (case_match; simpl; eauto); done.
Qed.

Lemma validate_url_parsed (url : string) (parsed : ParseResult) :
  urlparse url = inr parsed ->
  fst (validate url) = true ->
  scheme parsed ∈ ALLOWED_SCHEMES /\
  blocked (hostname parsed) = false /\
  (forall h, hostname parsed = Some h -> h <> "" ->
             _is_private_ip IPAddress ip_address
                            is_private is_reserved is_loopback h = false).
Proof.
  unfold validate, validate_url. intros ->.
  destruct (negb (Py.truthy url)); [done | ].
  destruct (Py.len url >? 2048); [done | ].
  case_bool_decide; simpl; [ | done ].
  destruct (blocked (hostname parsed)); [done | ].
  destruct (hostname parsed) as [h | ]; [ | done ].
  intros Hv. repeat split; try done.
  intros h' [= <-] Hne. destruct h; [done | ]. simpl in Hv.
  by destruct (_is_private_ip _ _ _ _ _ _).
Qed.

End UrlRules.

(** C9. Whatever [urlparse] and [ipaddress] answer, [validate_url] returns
    a pair and never raises; it is invalid, with a reason, for a URL longer
    than 2048 characters, for one that does not parse, for one whose scheme
    is neither [http] nor [https], for one whose hostname is [localhost],
    [127.0.0.1], [0.0.0.0] or [::1], and for one whose hostname parses as an
    IP address that is private, reserved or loopback. A URL of an allowed
    scheme and length whose hostname is not blocked and is not an IP address
    is accepted, with no further look-up. *)
Theorem validate_url_spec
        (urlparse : string -> string + URLValidator.ParseResult)
        (IPAddress : Type) (ip_address : string -> option IPAddress)
        (is_private is_reserved is_loopback : IPAddress -> bool)
        (url : string) :
  let validate := URLValidator.validate_url urlparse IPAddress ip_address
                    is_private is_reserved is_loopback in
  (fst (validate url) = false -> is_Some (snd (validate url))) /\
  (Py.len url > 2048 -> fst (validate url) = false) /\
  (forall msg, urlparse url = inl msg -> fst (validate url) = false) /\
  (forall parsed, urlparse url = inr parsed ->
     URLValidator.scheme parsed <> "http" ->
     URLValidator.scheme parsed <> "https" ->
     fst (validate url) = false) /\
  (forall parsed h, urlparse url = inr parsed ->
     URLValidator.hostname parsed = Some h ->
     h ∈ ["localhost"; "127.0.0.1"; "0.0.0.0"; "::1"] ->
     fst (validate url) = false) /\
  (forall parsed h ip, urlparse url = inr parsed ->
     URLValidator.hostname parsed = Some h -> h <> "" ->
     ip_address h = Some ip ->
     is_private ip = true \/ is_loopback ip = true \/ is_reserved ip = true ->
     fst (validate url) = false) /\
  (forall parsed h, url <> "" -> Py.len url <= 2048 ->
     urlparse url = inr parsed ->
     URLValidator.scheme parsed = "http" \/ URLValidator.scheme parsed = "https" ->
     URLValidator.hostname parsed = Some h ->
     h ∉ ["localhost"; "127.0.0.1"; "0.0.0.0"; "::1"] ->
     ip_address h = None ->
     validate url = (true, None)).
Proof.
  intros validate.
  assert (Hparsed := validate_url_parsed urlparse IPAddress ip_address
                       is_private is_reserved is_loopback url).
  fold validate in Hparsed.
  split; [ apply validate_url_reason | ].
  split; [ | split; [ | split; [ | split; [ | split ] ] ] ].
  - intros Hlen. unfold validate, URLValidator.validate_url.
    destruct (negb (Py.truthy url)); [done | ].
    rewrite Z.gtb_ltb. destruct (Z.ltb_spec 2048 (Py.len url)); [done | lia].
  - intros msg Hmsg. unfold validate, URLValidator.validate_url.
    rewrite Hmsg. by repeat case_match.
  - intros parsed Hp Hhttp Hhttps.
    destruct (fst (validate url)) eqn:E; [ | done ].
    destruct (Hparsed parsed Hp eq_refl) as (Hs & _).
    apply allowed_scheme in Hs. tauto.
  - intros parsed h Hp Hh Hin.
    destruct (fst (validate url)) eqn:E; [ | done ].
    destruct (Hparsed parsed Hp eq_refl) as (_ & Hb & _).
    rewrite Hh in Hb. simpl in Hb. apply bool_decide_eq_false in Hb.
    by rewrite blocked_domain in Hb.
  - intros parsed h ip Hp Hh Hne Hip Hbad.
    destruct (fst (validate url)) eqn:E; [ | done ].
    destruct (Hparsed parsed Hp eq_refl) as (_ & _ & Hpriv).
    specialize (Hpriv h Hh Hne). unfold URLValidator._is_private_ip in Hpriv.
    rewrite Hip in Hpriv.
    destruct (is_private ip), (is_reserved ip), (is_loopback ip);
      simpl in Hpriv; try done; destruct Hbad as [ | [ | ] ]; done.
  - intros parsed h Hne Hlen Hp Hs Hh Hnb Hip.
    unfold validate, URLValidator.validate_url.
    destruct url as [ | c r]; [done | ]. simpl Py.truthy. simpl negb. cbv iota.
    rewrite Z.gtb_ltb. destruct (Z.ltb_spec 2048 (Py.len (String c r))); [lia | ].
    rewrite Hp, Hh. simpl URLValidator.blocked.
    rewrite bool_decide_true by (by apply allowed_scheme).
    rewrite bool_decide_false by (by rewrite blocked_domain).
    unfold URLValidator._is_private_ip. rewrite Hip.
    simpl. by rewrite andb_false_r.
Qed.

Lemma validate_url_spec_witness :
  UrlLib.validate_url "https://example.com/path?q=1" = (true, None) /\
  fst (UrlLib.validate_url "ftp://example.com/file") = false /\
  fst (UrlLib.validate_url "http://localhost/admin") = false /\
  fst (UrlLib.validate_url "http://192.168.1.1") = false.
Proof.
  pose (spec := validate_url_spec UrlLib.urlparse UrlLib.IPAddress
                  UrlLib.ip_address UrlLib.is_private UrlLib.is_reserved
                  UrlLib.is_loopback).
  destruct (spec "https://example.com/path?q=1") as (_ & _ & _ & _ & _ & _ & Hok).
  destruct (spec "ftp://example.com/file") as (_ & _ & _ & Hscheme & _).
  destruct (spec "http://localhost/admin") as (_ & _ & _ & _ & Hblocked & _).
  destruct (spec "http://192.168.1.1") as (_ & _ & _ & _ & _ & Hprivate & _).
  split; [ | split; [ | split ] ].
  - apply (Hok (URLValidator.Parsed "https" (Some "example.com")) "example.com").
    + discriminate.
    + vm_compute. discriminate.
    + reflexivity.
    + right. reflexivity.
    + reflexivity.
    + by_computation.
    + reflexivity.
  - apply (Hscheme (URLValidator.Parsed "ftp" (Some "example.com")));
      [ reflexivity | discriminate | discriminate ].
  - apply (Hblocked (URLValidator.Parsed "http" (Some "localhost")) "localhost");
      [ reflexivity | reflexivity | by_computation ].
  - apply (Hprivate (URLValidator.Parsed "http" (Some "192.168.1.1"))
                    "192.168.1.1" 3232235777);
      [ reflexivity | reflexivity | discriminate | reflexivity
      | left; reflexivity ].
Defined.

(** ** The Task entity *)

Section TaskLifecycle.

Import TaskModel.

(** The constructor only lets a retry count of 0 to 3 through. *)
Lemma new_retry_count fresh now kw t :
  new fresh now kw = inr t -> 0 <= retry_count t <= 3.
Proof.
  unfold new, field_range. intros Hnew.
  repeat case_match; simplify_eq; simpl; lia.
Qed.

(** No mutator writes [retry_count]. *)
Lemma mutators_keep_retry_count now output code details t :
  retry_count (set_processing now t) = retry_count t /\
  retry_count (set_completed now output t) = retry_count t /\
  retry_count (set_failed now code details t) = retry_count t.
Proof. done. Qed.

Lemma reachable_retry_count t : reachable t -> 0 <= retry_count t <= 3.
Proof.
  induction 1 as [fresh now kw t Hnew | | | ]; simpl; try done.
  by eapply new_retry_count.
Qed.

Lemma created_task_new : new 7%N 1000 minimal_kwargs = inr created_task.
Proof. by vm_compute. Qed.

Lemma created_task_reachable : reachable created_task.
Proof. exact (reach_new _ _ _ _ created_task_new). Qed.

End TaskLifecycle.

(** C7. The retry count of a task (built by the constructor, changed by
    the mutators) is within 0 to 3, and [can_retry] holds exactly when the
    status is Failed and the retry count is below 3. *)
Theorem retry_count_bound_and_can_retry (t : Task) :
  TaskModel.reachable t ->
  0 <= retry_count t <= 3 /\
  (TaskModel.can_retry t = true <-> status t = FAILED /\ retry_count t < 3).
Proof.
  intros Hreach. split; [ by apply reachable_retry_count | ].
  unfold TaskModel.can_retry.
  rewrite andb_true_iff, Z.ltb_lt, bool_decide_eq_true. tauto.
Qed.

Lemma retry_count_bound_and_can_retry_witness :
  0 <= retry_count TaskModel.failed_task <= 3 /\
  (TaskModel.can_retry TaskModel.failed_task = true
   <-> status TaskModel.failed_task = FAILED
       /\ retry_count TaskModel.failed_task < 3).
Proof.
  apply (retry_count_bound_and_can_retry TaskModel.failed_task).
  apply TaskModel.reach_failed, TaskModel.reach_processing.
  apply (TaskModel.reach_new 7%N 1000 TaskModel.minimal_kwargs).
  reflexivity.
Defined.

Example failed_task_can_retry :
  TaskModel.can_retry TaskModel.failed_task = true /\
  TaskModel.can_retry TaskModel.completed_task = false.
Proof. by vm_compute. Qed.

(** C1 as stated fails: a completed task, whose status Success is final,
    is put back to Processing by [set_processing]. *)
Lemma final_status_overwritten :
  TaskModel.reachable TaskModel.completed_task /\
  TaskStatus.is_final (status TaskModel.completed_task) = true /\
  status TaskModel.completed_task = SUCCESS /\
  status (TaskModel.set_processing 4000 TaskModel.completed_task) = PROCESSING.
Proof.
  split; [ | by vm_compute ].
  apply TaskModel.reach_completed, TaskModel.reach_processing.
  apply created_task_reachable.
Qed.

(** C1, as the code has it. The mutators do not look at the current
    status: [set_processing] always sets Processing, [set_completed] always
    Success and [set_failed] always Failed. So on a task in a final status
    [set_processing] always changes the status, [set_completed] keeps it
    only when it is Success already, and [set_failed] only when it is
    Failed already. *)
Theorem mutators_overwrite_status
        (t : Task) (now : datetime) (output : UUID)
        (code : ErrorCode) (details : string) :
  status (TaskModel.set_processing now t) = PROCESSING /\
  status (TaskModel.set_completed now output t) = SUCCESS /\
  status (TaskModel.set_failed now code details t) = FAILED /\
  (TaskStatus.is_final (status t) = true ->
   status (TaskModel.set_processing now t) <> status t) /\
  (status (TaskModel.set_completed now output t) = status t
   <-> status t = SUCCESS) /\
  (status (TaskModel.set_failed now code details t) = status t
   <-> status t = FAILED).
Proof.
  simpl. repeat split; try done.
  intros Hfinal Heq. rewrite <- Heq in Hfinal. by vm_compute in Hfinal.
Qed.

Lemma mutators_overwrite_status_witness :
  status (TaskModel.set_processing 4000 TaskModel.failed_task)
  <> status TaskModel.failed_task.
Proof.
  destruct (mutators_overwrite_status TaskModel.failed_task 4000 9%N
              INTERNAL_ERROR "again") as (_ & _ & _ & Hfinal & _).
  apply Hfinal. reflexivity.
Defined.

(** ** Runs on concrete inputs *)

Example split_examples :
  PosixPath.split "a//b/" = ["a"; ""; "b"; ""] /\
  PosixPath.split "" = [""] /\
  PosixPath.split "/x" = [""; "x"] /\
  PosixPath.Path "//a/./b/../c/" = PosixPath.mk "//" ["a"; "b"; ".."; "c"] /\
  PosixPath.Path "///a" = PosixPath.mk "/" ["a"] /\
  PosixPath.str (PosixPath.Path "./a//b/") = "a/b" /\
  PosixPath.name (PosixPath.Path "/") = "".
Proof. repeat split; by vm_compute. Qed.

Example sanitize_path_examples :
  FileValidator.sanitize_path "uploads\file.txt" = "uploads/file.txt" /\
  FileValidator.sanitize_path "/absolute/path/file.txt" = "file.txt" /\
  FileValidator.sanitize_path "../../../file.txt" = "file.txt".
Proof. repeat split; by vm_compute. Qed.

Example validate_file_size_messages :
  FileValidator.validate_file_size (-1) "file"
  = (false, Some "File size must be positive") /\
  FileValidator.validate_file_size 524288001 "file"
  = (false, Some "Size 524288001 bytes exceeds maximum of 524288000 bytes") /\
  FileValidator.validate_file_size 10000001 "text" = (true, None).
Proof. repeat split; by vm_compute. Qed.

Example utf8_examples :
  Py.decode_utf8 [xe2; x82; xac; x41] = Some [8364%N; 65%N] /\
  Py.decode_utf8 [xc0; x80] = None /\
  Py.decode_utf8 [xed; xa0; x80] = None /\
  Py.decode_utf8 [xe2; x82] = None /\
  Py.encode_utf8 (String (ascii_of_N 233) "a") = [xc3; xa9; x61].
Proof. repeat split; by vm_compute. Qed.

Example quick_format_check_examples :
  FileValidator.quick_format_check
    (FileValidator.Holding [x25; x50; x44; x46; x2d; x31; x2e; x34]) PDF
  = (true, None) /\
  FileValidator.quick_format_check (FileValidator.Holding [xff; xfe; x41]) HTML
  = (true, None) /\
  FileValidator.quick_format_check FileValidator.Missing MD
  = (false, Some "File does not exist").
Proof. repeat split; by vm_compute. Qed.

Example validate_url_examples :
  UrlLib.urlparse "HTTP://User:pw@Example.COM:8080/x"
  = inr (URLValidator.Parsed "http" (Some "example.com")) /\
  UrlLib.urlparse "javascript:alert(1)"
  = inr (URLValidator.Parsed "javascript" None) /\
  UrlLib.urlparse "http://[::1]:80/"
  = inr (URLValidator.Parsed "http" (Some "::1")) /\
  UrlLib.ip_address "example.com" = None /\
  UrlLib.ip_address "01.2.3.4" = None /\
  UrlLib.validate_url "http://127.0.0.1:8080"
  = (false, Some "Cannot access localhost") /\
  UrlLib.validate_url "http://10.1.2.3/"
  = (false, Some "Cannot access private network addresses") /\
  UrlLib.validate_url "javascript:alert(1)"
  = (false, Some "URL scheme 'javascript' not allowed (use http/https)") /\
  UrlLib.validate_url "http://8.8.8.8/" = (true, None).
Proof. repeat split; by vm_compute. Qed.

Example task_examples :
  status TaskModel.failed_task = FAILED /\
  message TaskModel.failed_task = "Conversion failed: boom" /\
  progress TaskModel.completed_task = 100 /\
  processing_time TaskModel.completed_task = Some (Qmake 1000 1000000) /\
  TaskModel.new 7%N 1000
    {| TaskModel.kw_id := None; TaskModel.kw_status := None;
       TaskModel.kw_priority := None; TaskModel.kw_source := None;
       TaskModel.kw_input_file_id := 1%N;
       TaskModel.kw_output_file_id := None; TaskModel.kw_cache_key := None;
       TaskModel.kw_source_format := MD;
       TaskModel.kw_target_format := MARKDOWN;
       TaskModel.kw_options := None; TaskModel.kw_progress := None;
       TaskModel.kw_message := None; TaskModel.kw_error_code := None;
       TaskModel.kw_error_details := None; TaskModel.kw_created_at := None;
       TaskModel.kw_started_at := None; TaskModel.kw_completed_at := None;
       TaskModel.kw_processing_time := None;
       TaskModel.kw_memory_used := None;
       TaskModel.kw_retry_count := None |}
  = inl "Cannot convert from markdown to markdown".
Proof. repeat split; by vm_compute. Qed.

(** * Further properties *)

(** ** Format tables and status predicates *)

Section FormatTables.

Import DocumentFormat Formats.

Lemma lower_dot (s : string) :
  Py.lower (String "." s) = String "." (Py.lower s).
Proof. done. Qed.

Lemma ext_map_dot (k : string) :
  default MARKDOWN (ext_map !! String "." k)
  = default MARKDOWN (format_map !! k).
Proof.
  destruct (decide (k ∈ aliases)) as [Hin | Hout].
  - unfold aliases in Hin.
    repeat (apply elem_of_cons in Hin as [-> | Hin]; [by vm_compute | ]).
    by apply elem_of_nil in Hin.
  - unfold ext_map, format_map.
    rewrite !lookup_insert_ne, !lookup_singleton_ne; [done | ..];
      intros E; apply Hout; simplify_eq; by_computation.
Qed.

End FormatTables.

(** X1. [from_extension] and [normalize] agree: an extension, that is a dot
    followed by [s], maps to the format [s] normalizes to, whatever the
    casing, with the same Markdown fall-back; and the extensions
    [from_extension] knows are exactly those of [get_extensions]. *)
Theorem from_extension_normalize (s : string) :
  Formats.from_extension (String "." s) = DocumentFormat.normalize s /\
  dom Formats.ext_map = Formats.get_extensions.
Proof.
  split.
  - unfold Formats.from_extension, DocumentFormat.normalize.
    rewrite lower_dot. apply ext_map_dot.
  - by_computation.
Qed.

(** X2. Every format has a MIME type of its own in [mime_map], so the
    [application/octet-stream] default is never returned, and an alias has
    the MIME type of the format it normalizes to. *)
Theorem to_mime_type_normalized (f : DocumentFormat) :
  Formats.to_mime_type f
  = Formats.to_mime_type (DocumentFormat.normalize (DocumentFormat.value f)) /\
  Formats.to_mime_type f <> "application/octet-stream" /\
  Formats.to_mime_type (DocumentFormat.normalize (DocumentFormat.value f))
  ∈ ["text/markdown"; "application/pdf"; "text/html"].
Proof.
  destruct f;
    (split; [ by vm_compute | split; [ by vm_compute | by_computation ] ]).
Qed.

(** X3. A status can be cancelled exactly when it is not final, and the
    active status, Processing, can be cancelled. *)
Theorem can_cancel_iff_not_final (s : TaskStatus) :
  TaskStatus.can_cancel s = negb (TaskStatus.is_final s) /\
  (TaskStatus.is_active s = true ->
   TaskStatus.can_cancel s = true /\ TaskStatus.is_final s = false).
Proof. destruct s; (split; [ by vm_compute | intros H; by vm_compute in H |- * ]). Qed.

Lemma can_cancel_iff_not_final_witness :
  TaskStatus.can_cancel PROCESSING = true /\
  TaskStatus.is_final PROCESSING = false.
Proof.
  destruct (can_cancel_iff_not_final PROCESSING) as [_ H].
  apply H. reflexivity.
Defined.

(** X4. The queue weight grows strictly with the priority: a task of higher
    priority always has the larger weight, and every weight is between 1
    and 100. *)
Theorem queue_weight_monotone (p q : Priority) :
  (Priority.value p < Priority.value q
   <-> Priority.queue_weight p < Priority.queue_weight q) /\
  1 <= Priority.queue_weight p <= 100.
Proof. destruct p, q; simpl; lia. Qed.

(** ** File names *)

Section FileNameRules.

Import FileNames.

Local Arguments Ascii.eqb : simpl never.

(** What an accepted file name is. *)
Lemma validate_filename_valid (f : string) :
  fst (validate_filename f) = true <->
  f <> "" /\ PyText.contains ".." f = false
  /\ Py.contains_char "/" f = false /\ Py.contains_char "\" f = false
  /\ Py.contains_char PyText.NUL f = false /\ Py.len f <= 255
  /\ PyText.search_dangerous f = false.
Proof.
  unfold validate_filename.
  destruct f as [ | c r]; [ simpl; split; [done | by intros [] ] | ].
  simpl Py.truthy. simpl negb. cbv iota.
  destruct (PyText.contains ".." (String c r)); [ simpl; split; [done | by intros (_ & ? & _)] | ].
  destruct (Py.contains_char "/" (String c r)); [ simpl; split; [done | by intros (_ & _ & ? & _)] | ].
  destruct (Py.contains_char "\" (String c r)); [ simpl; split; [done | by intros (_ & _ & _ & ? & _)] | ].
  simpl orb. cbv iota.
  destruct (Py.contains_char PyText.NUL (String c r)); [ simpl; split; [done | by intros (_ & _ & _ & _ & ? & _)] | ].
  rewrite Z.gtb_ltb.
  destruct (Z.ltb_spec 255 (Py.len (String c r))); [ simpl; split; [done | intros (_ & _ & _ & _ & _ & ? & _); lia] | ].
  destruct (PyText.search_dangerous (String c r)); simpl; split; try done.
  by intros (_ & _ & _ & _ & _ & _ & ?).
Qed.

Lemma splitroot_relative (f : string) :
  Py.contains_char "/" f = false -> PosixPath.splitroot f = ("", f).
Proof.
  destruct f as [ | c r]; [done | ].
  intros [Hc _]%contains_char_cons. unfold PosixPath.splitroot.
  by rewrite (proj2 (Ascii.eqb_neq "/" c) Hc).
Qed.

End FileNameRules.

(** X5. A file name that [validate_filename] accepts is safe to store: seen
    as a path it is relative and has no parent reference, so
    [sanitize_path] returns it unchanged. *)
Theorem valid_filename_sanitized (f : string) :
  fst (FileNames.validate_filename f) = true ->
  FileValidator.sanitize_path f = f /\
  PosixPath.is_absolute (PosixPath.Path f) = false /\
  ".." ∉ PosixPath.parts (PosixPath.Path f).
Proof.
  intros (Hne & Hdots & Hsep & Hbs & _)%validate_filename_valid.
  assert (Hpath : PosixPath.Path f
                  = PosixPath.mk "" (if decide (f = ".") then [] else [f])).
  { unfold PosixPath.Path. rewrite splitroot_relative by done.
    rewrite split_single by done. f_equal.
    case_decide as Hdot.
    - by rewrite filter_cons_False by (by intros [_ ?]).
    - by rewrite filter_cons_True by done. }
  assert (Hnot : f <> "..") by (by intros ->).
  rewrite Hpath. unfold PosixPath.is_absolute, PosixPath.parts. simpl.
  split; [ | split; [done | ] ].
  - case_decide as Hdot; [ by subst | ].
    by apply sanitize_component.
  - case_decide; [ by apply not_elem_of_nil | ].
    intros Hin%list_elem_of_singleton. by apply Hnot.
Qed.

Lemma valid_filename_sanitized_witness :
  FileValidator.sanitize_path "report.final.md" = "report.final.md" /\
  PosixPath.is_absolute (PosixPath.Path "report.final.md") = false /\
  ".." ∉ PosixPath.parts (PosixPath.Path "report.final.md").
Proof. apply (valid_filename_sanitized "report.final.md"). reflexivity. Defined.

(** ** Text sanitization *)

Section TextSanitization.

Import PyText TextSanitizer.

Local Arguments Ascii.eqb : simpl never.

(** Induction over a string two characters at a time, as [replace_crlf]
    recurses. *)
Lemma string_pair_ind (P : string -> Prop) :
  P "" ->
  (forall c, P (String c "")) ->
  (forall c d r, P r -> P (String d r) -> P (String c (String d r))) ->
  forall s, P s.
Proof.
  intros H0 H1 H2 s.
  assert (H : P s /\ forall c, P (String c s)); [ | by destruct H ].
  induction s as [ | d r [IH1 IH2]]; [by split | ].
  split; [ apply IH2 | ]. intros c. apply H2; [done | apply IH2].
Qed.

Lemma replace_crlf_cons2 (c d : ascii) (r : string) :
  replace_crlf (String c (String d r))
  = if Ascii.eqb CR c && Ascii.eqb LF d
    then String LF (replace_crlf r)
    else String c (replace_crlf (String d r)).
Proof. done. Qed.

Lemma remove_char_gone (c : ascii) (s : string) :
  Py.contains_char c (remove_char c s) = false.
Proof.
  induction s as [ | d r IH]; [done | ]. simpl.
  destruct (Ascii.eqb_spec c d) as [ | Hne]; [done | ].
  by apply contains_char_cons.
Qed.

Lemma remove_char_keeps_absent (c d : ascii) (s : string) :
  Py.contains_char c s = false -> Py.contains_char c (remove_char d s) = false.
Proof.
  induction s as [ | a r IH]; [done | ].
  intros [Hca Hr]%contains_char_cons. simpl.
  destruct (Ascii.eqb d a); [ by apply IH | ].
  apply contains_char_cons. auto.
Qed.

Lemma remove_char_absent (c : ascii) (s : string) :
  Py.contains_char c s = false -> remove_char c s = s.
Proof.
  induction s as [ | a r IH]; [done | ].
  intros [Hca Hr]%contains_char_cons. simpl.
  rewrite (proj2 (Ascii.eqb_neq c a) Hca). by rewrite IH.
Qed.

Lemma remove_char_length (c : ascii) (s : string) :
  (String.length (remove_char c s) <= String.length s)%nat.
Proof.
  induction s as [ | a r IH]; [done | ]. simpl.
  destruct (Ascii.eqb c a); simpl; lia.
Qed.

(** [replace_crlf] writes no character its input does not hold. *)
Lemma replace_crlf_keeps_absent (c : ascii) (s : string) :
  Py.contains_char c s = false -> Py.contains_char c (replace_crlf s) = false.
Proof.
  induction s as [ | a | a d r IHr IHdr] using string_pair_ind; [done | done | ].
  intros [Ha [Hd Hr]%contains_char_cons]%contains_char_cons.
  rewrite replace_crlf_cons2.
  destruct (Ascii.eqb CR a && Ascii.eqb LF d) eqn:E.
  - apply andb_true_iff in E as [_ ->%Ascii.eqb_eq].
    apply contains_char_cons. auto.
  - apply contains_char_cons. split; [done | ].
    apply IHdr. by apply contains_char_cons.
Qed.

Lemma replace_crlf_absent (s : string) :
  Py.contains_char CR s = false -> replace_crlf s = s.
Proof.
  induction s as [ | a | a d r IHr IHdr] using string_pair_ind; [done | done | ].
  intros [Ha Hdr]%contains_char_cons.
  rewrite replace_crlf_cons2.
  rewrite (proj2 (Ascii.eqb_neq CR a) Ha), andb_false_l. by rewrite IHdr.
Qed.

Lemma replace_crlf_length (s : string) :
  (String.length (replace_crlf s) <= String.length s)%nat.
Proof.
  induction s as [ | a | a d r IHr IHdr] using string_pair_ind; [done | done | ].
  rewrite replace_crlf_cons2.
  destruct (Ascii.eqb CR a && Ascii.eqb LF d); simpl in *; lia.
Qed.

Lemma replace_char_gone (a b : ascii) (s : string) :
  a <> b -> Py.contains_char a (Py.replace_char a b s) = false.
Proof.
  intros Hab. induction s as [ | c r IH]; [done | ]. simpl.
  destruct (Ascii.eqb_spec a c) as [ | Hne].
  - by rewrite (proj2 (Ascii.eqb_neq a b) Hab).
  - by rewrite (proj2 (Ascii.eqb_neq a c) Hne).
Qed.

Lemma replace_char_keeps_absent (c a b : ascii) (s : string) :
  c <> b -> Py.contains_char c s = false ->
  Py.contains_char c (Py.replace_char a b s) = false.
Proof.
  intros Hcb. induction s as [ | d r IH]; [done | ].
  intros [Hcd Hr]%contains_char_cons. simpl.
  apply contains_char_cons. split; [ by destruct (Ascii.eqb a d) | auto ].
Qed.

Lemma replace_char_length (a b : ascii) (s : string) :
  String.length (Py.replace_char a b s) = String.length s.
Proof. induction s as [ | c r IH]; [done | ]. simpl. by rewrite IH. Qed.

Lemma sanitize_text_clean (text : string) :
  Py.contains_char NUL (sanitize_text text) = false /\
  Py.contains_char CR (sanitize_text text) = false.
Proof.
  unfold sanitize_text. split.
  - apply replace_char_keeps_absent; [done | ].
    apply replace_crlf_keeps_absent, remove_char_gone.
  - by apply replace_char_gone.
Qed.

Lemma sanitize_text_fixed (text : string) :
  Py.contains_char NUL text = false -> Py.contains_char CR text = false ->
  sanitize_text text = text.
Proof.
  intros Hnul Hcr. unfold sanitize_text.
  rewrite (remove_char_absent _ _ Hnul), (replace_crlf_absent _ Hcr).
  by apply replace_char_absent.
Qed.

End TextSanitization.

(** X6. [sanitize_text] leaves no null character and no carriage return in
    its result, changes nothing in a text that has neither, never makes the
    text longer, and is idempotent. *)
Theorem sanitize_text_idempotent (text : string) :
  Py.contains_char PyText.NUL (TextSanitizer.sanitize_text text) = false /\
  Py.contains_char PyText.CR (TextSanitizer.sanitize_text text) = false /\
  (Py.contains_char PyText.NUL text = false ->
   Py.contains_char PyText.CR text = false ->
   TextSanitizer.sanitize_text text = text) /\
  Py.len (TextSanitizer.sanitize_text text) <= Py.len text /\
  TextSanitizer.sanitize_text (TextSanitizer.sanitize_text text)
  = TextSanitizer.sanitize_text text.
Proof.
  destruct (sanitize_text_clean text) as [Hnul Hcr].
  repeat split; try done.
  - apply sanitize_text_fixed.
  - unfold Py.len, TextSanitizer.sanitize_text.
    rewrite replace_char_length.
    pose proof (replace_crlf_length (PyText.remove_char PyText.NUL text)).
    pose proof (remove_char_length PyText.NUL text). lia.
  - by apply sanitize_text_fixed.
Qed.

Lemma sanitize_text_idempotent_witness :
  TextSanitizer.sanitize_text "Line1" = "Line1".
Proof.
  destruct (sanitize_text_idempotent "Line1") as (_ & _ & H & _).
  apply H; reflexivity.
Defined.

(** X7. A sanitized text passes [validate_text_input] without a size limit
    unless nothing is left of it: sanitizing removes what the validator
    looks for. *)
Theorem sanitized_text_is_valid (text : string) :
  TextSanitizer.sanitize_text text <> "" ->
  TextValidator.validate_text_input (TextSanitizer.sanitize_text text) None
  = (true, None).
Proof.
  intros Hne. destruct (sanitize_text_clean text) as [Hnul _].
  unfold TextValidator.validate_text_input.
  destruct (TextSanitizer.sanitize_text text); [done | ].
  simpl Py.truthy. simpl negb. cbv iota.
  unfold PyText.NUL in Hnul. by rewrite Hnul.
Qed.

Lemma sanitized_text_is_valid_witness :
  TextValidator.validate_text_input
    (TextSanitizer.sanitize_text (String "H" (String PyText.NUL (String PyText.CR "i"))))
    None
  = (true, None).
Proof.
  apply (sanitized_text_is_valid
           (String "H" (String PyText.NUL (String PyText.CR "i")))).
  vm_compute. discriminate.
Defined.

(** ** Conversion requests *)

Lemma validate_conversion_cases (a b : ConversionValidator.FormatArg) :
  ConversionValidator.validate_conversion a b
  = if decide (DocumentFormat.normalize (ConversionValidator.format_str a)
               = DocumentFormat.normalize (ConversionValidator.format_str b))
    then (false, Some "Source and target formats are the same")
    else (true, None).
Proof.
  unfold ConversionValidator.validate_conversion.
  destruct (normalize_canonical (ConversionValidator.format_str a)) as [-> | [-> | ->]];
    destruct (normalize_canonical (ConversionValidator.format_str b)) as [-> | [-> | ->]];
    by vm_compute.
Qed.

Lemma validate_conversion_fst (a b : ConversionValidator.FormatArg) :
  fst (ConversionValidator.validate_conversion a b)
  = Constants.can_convert
      (DocumentFormat.normalize (ConversionValidator.format_str a))
      (DocumentFormat.normalize (ConversionValidator.format_str b)).
Proof.
  rewrite validate_conversion_cases.
  destruct (normalize_canonical (ConversionValidator.format_str a)) as [-> | [-> | ->]];
    destruct (normalize_canonical (ConversionValidator.format_str b)) as [-> | [-> | ->]];
    by vm_compute.
Qed.

(** X8. [validate_conversion] accepts strings and enum members alike and
    agrees with [can_convert] on the normalized formats: it answers valid
    when they differ and [Source and target formats are the same] when they
    are equal; its third answer, that the conversion is not supported, is
    never given. *)
Theorem validate_conversion_agrees (a b : ConversionValidator.FormatArg) :
  let s := DocumentFormat.normalize (ConversionValidator.format_str a) in
  let t := DocumentFormat.normalize (ConversionValidator.format_str b) in
  fst (ConversionValidator.validate_conversion a b) = Constants.can_convert s t /\
  (s = t ->
   ConversionValidator.validate_conversion a b
   = (false, Some "Source and target formats are the same")) /\
  (s <> t -> ConversionValidator.validate_conversion a b = (true, None)).
Proof.
  intros s t. split; [ apply validate_conversion_fst | ].
  rewrite validate_conversion_cases. fold s t.
  split; intros H; by case_decide.
Qed.

Lemma validate_conversion_agrees_witness :
  ConversionValidator.validate_conversion
    (ConversionValidator.Plain "MD") (ConversionValidator.Member PDF)
  = (true, None) /\
  ConversionValidator.validate_conversion
    (ConversionValidator.Plain "docx") (ConversionValidator.Member MD)
  = (false, Some "Source and target formats are the same").
Proof.
  destruct (validate_conversion_agrees
              (ConversionValidator.Plain "MD") (ConversionValidator.Member PDF))
    as (_ & _ & Hdiff).
  destruct (validate_conversion_agrees
              (ConversionValidator.Plain "docx") (ConversionValidator.Member MD))
    as (_ & Hsame & _).
  split; [ apply Hdiff; vm_compute; discriminate | apply Hsame; reflexivity ].
Defined.

Section MarginPattern.

Import PyText.

Local Arguments Ascii.eqb : simpl never.
Local Arguments isdigit : simpl never.

Lemma skip_digits_app (ds rest : string) :
  all_digits ds = true -> skip_digits (ds ++ rest) = skip_digits rest.
Proof.
  induction ds as [ | c r IH]; [done | ].
  intros [Hc Hr]%andb_true_iff.
  change (String c r ++ rest) with (String c (r ++ rest)).
  simpl. rewrite Hc. by apply IH.
Qed.

Lemma append_cons (c : ascii) (r s : string) :
  String c r ++ s = String c (r ++ s).
Proof. done. Qed.

Lemma append_empty (s : string) : s ++ "" = s.
Proof.
  induction s as [ | c r IH]; [done | ]. by rewrite append_cons, IH.
Qed.

(** A string is its leading digits followed by the rest. *)
Lemma skip_digits_split (s : string) :
  exists ds, s = ds ++ skip_digits s /\ all_digits ds = true.
Proof.
  induction s as [ | c r (ds & Hds & Hall)]; [ by exists "" | ].
  simpl. destruct (isdigit c) eqn:Hc; [ | by exists "" ].
  exists (String c ds). split.
  - rewrite append_cons. by f_equal.
  - simpl. by rewrite Hc, Hall.
Qed.

Lemma skip_digits_unit (u e : string) :
  u ∈ units -> e = "" \/ e = String LF "" ->
  skip_digits (u ++ e) = u ++ e.
Proof.
  unfold units. intros Hu He.
  repeat (apply elem_of_cons in Hu as [-> | Hu];
          [ by destruct He as [-> | ->] | ]).
  by apply elem_of_nil in Hu.
Qed.

(** The strings the margin pattern matches. *)
Lemma margin_match_shape (s : string) :
  margin_match s = true <->
  exists ds u e, s = ds ++ u ++ e /\ ds <> "" /\ all_digits ds = true
                 /\ u ∈ units /\ (e = "" \/ e = String LF "").
Proof.
  split.
  - destruct s as [ | c r]; [done | ]. unfold margin_match.
    intros [Hc Hex]%andb_true_iff.
    assert (Hskip : skip_digits (String c r) = skip_digits r)
      by (simpl; by rewrite Hc).
    rewrite Hskip in Hex.
    destruct (skip_digits_split r) as (ds & Hds & Hall).
    apply existsb_exists in Hex as (u & Hu%list_elem_of_In & Hm).
    apply orb_true_iff in Hm as [Hm%String.eqb_eq | Hm%String.eqb_eq].
    + subst u. exists (String c ds), (skip_digits r), "".
      rewrite append_empty, append_cons, <- Hds.
      split; [done | ]. split; [done | ].
      split; [ simpl; by rewrite Hc | ]. split; [done | by left].
    + exists (String c ds), u, (String LF "").
      rewrite append_cons, <- Hm, <- Hds.
      split; [done | ]. split; [done | ].
      split; [ simpl; by rewrite Hc | ]. split; [done | by right].
  - intros (ds & u & e & -> & Hne & Hall & Hu & He).
    assert (Hskip : skip_digits (ds ++ u ++ e) = u ++ e)
      by (by rewrite skip_digits_app, skip_digits_unit).
    destruct ds as [ | c r]; [done | ].
    apply andb_true_iff in Hall as [Hc _].
    rewrite append_cons in *. unfold margin_match.
    rewrite Hc, Hskip. cbn [andb].
    unfold units in Hu |- *.
    repeat (apply elem_of_cons in Hu as [-> | Hu];
            [ by destruct He as [-> | ->]; vm_compute | ]).
    by apply elem_of_nil in Hu.
Qed.

End MarginPattern.

(** X9. [validate_conversion_options] accepts a dictionary exactly when
    its [page_size], if there is one, is one of the strings A4, A3, Letter,
    Legal, and its [margin], if there is one, is a string made of one or
    more digits, one of the units mm, cm, in, px, and nothing else but
    possibly one last line feed. No other key is looked at, and the empty
    dictionary is valid. *)
Theorem validate_conversion_options_valid (o : gmap string PyText.Value) :
  fst (ConversionValidator.validate_conversion_options o) = true <->
  (o !! "page_size" = None
   \/ exists s, o !! "page_size" = Some (PyText.VStr s)
                /\ s ∈ ConversionValidator.valid_sizes) /\
  (o !! "margin" = None
   \/ exists ds u e, o !! "margin" = Some (PyText.VStr (ds ++ u ++ e))
                     /\ ds <> "" /\ PyText.all_digits ds = true
                     /\ u ∈ PyText.units
                     /\ (e = "" \/ e = String PyText.LF "")).
Proof.
  unfold ConversionValidator.validate_conversion_options.
  case_bool_decide as Hempty.
  { subst o. rewrite !lookup_empty. simpl. split; [ auto | done ]. }
  destruct (o !! "page_size") as [v | ] eqn:Hpage.
  - destruct v as [s | | | ]; simpl;
      try (split; [ done | intros [[ | (s' & [=] & _)] _]; done ]).
    case_bool_decide as Hs; simpl.
    + destruct (o !! "margin") as [m | ] eqn:Hmargin.
      * destruct m as [m | | | ]; simpl;
          try (split; [ done | intros [_ [ | (? & ? & ? & [=] & _)]]; done ]).
        destruct (PyText.margin_match m) eqn:Hm; simpl.
        -- split; [ intros _ | done ]. split; [ right; eauto | right ].
           apply margin_match_shape in Hm as (ds & u & e & -> & ?). eauto 10.
        -- split; [ done | ].
           intros [_ [ | (ds & u & e & [= ->] & Hshape)]]; [done | ].
           assert (PyText.margin_match (ds ++ u ++ e) = true)
             by (apply margin_match_shape; eauto 10).
           congruence.
      * split; [ intros _ | done ]. split; [ right; eauto | by left ].
    + split; [ done | intros [[ | (s' & [= ->] & Hin)] _]; done ].
  - simpl. destruct (o !! "margin") as [m | ] eqn:Hmargin.
    + destruct m as [m | | | ]; simpl;
        try (split; [ done | intros [_ [ | (? & ? & ? & [=] & _)]]; done ]).
      destruct (PyText.margin_match m) eqn:Hm; simpl.
      * split; [ intros _ | done ]. split; [ by left | right ].
        apply margin_match_shape in Hm as (ds & u & e & -> & ?). eauto 10.
      * split; [ done | ].
        intros [_ [ | (ds & u & e & [= ->] & Hshape)]]; [done | ].
        assert (PyText.margin_match (ds ++ u ++ e) = true)
          by (apply margin_match_shape; eauto 10).
        congruence.
    + split; [ intros _ | done ]. split; by left.
Qed.

(** ** Sizes and paths of stored files *)

Lemma model_file_size_iff (v : Z) :
  Models.validate_file_size v = inr v
  <-> fst (FileValidator.validate_file_size v "file") = true.
Proof.
  rewrite validate_file_size_valid, max_size_lookup. simpl.
  unfold Models.validate_file_size. rewrite Z.gtb_ltb.
  destruct (Z.leb_spec v 0); [ split; [done | lia] | ].
  destruct (Z.ltb_spec Constants.MAX_FILE_SIZE v); split; (done || lia).
Qed.

(** X10. The size validator of the model and [validate_file_size] for an
    uploaded file are the same check: the model accepts a size exactly when
    the validator does, and raises otherwise. *)
Theorem model_file_size_agrees (v : Z) :
  (Models.validate_file_size v = inr v
   <-> fst (FileValidator.validate_file_size v "file") = true) /\
  (fst (FileValidator.validate_file_size v "file") = false
   -> exists e, Models.validate_file_size v = inl e).
Proof.
  split; [ apply model_file_size_iff | ].
  intros Hf. destruct (Models.validate_file_size v) as [e | w] eqn:E; [eauto | ].
  assert (w = v) as ->
    by (revert E; unfold Models.validate_file_size; by repeat case_match; intros [=]).
  apply model_file_size_iff in E. congruence.
Qed.

Lemma model_file_size_agrees_witness :
  exists e, Models.validate_file_size 524288001 = inl e.
Proof.
  destruct (model_file_size_agrees 524288001) as [_ H].
  apply H. reflexivity.
Defined.

Section StoredPaths.

Import PosixPath.

Local Arguments Ascii.eqb : simpl never.

(** The shapes of a sanitized path, for a path without a backslash: one
    kept component, nothing, the current directory, or a relative path of
    kept components without a parent reference. *)
Lemma sanitize_path_shape (p : string) :
  Py.contains_char "\" p = false ->
  (exists x, component x /\ FileValidator.sanitize_path p = x)
  \/ FileValidator.sanitize_path p = ""
  \/ FileValidator.sanitize_path p = "."
  \/ (exists l, l <> [] /\ Forall component l /\ (".." ∉ l)
                /\ FileValidator.sanitize_path p = join l).
Proof.
  intros Hbs. assert (Htail := Path_tail p).
  unfold FileValidator.sanitize_path.
  destruct (is_absolute (Path p) || bool_decide (".." ∈ parts (Path p))) eqn:E.
  - unfold name. destruct (last (tail (Path p))) as [x | ] eqn:Hlast.
    + left. exists x. split; [ | done ].
      apply last_Some_elem_of in Hlast. by apply Htail.
    + right. by left.
  - apply orb_false_iff in E as [Habs Hdots].
    apply bool_decide_eq_false in Hdots.
    unfold is_absolute in Habs. unfold parts in Hdots. rewrite Habs in Hdots.
    unfold str. destruct (root (Path p)); [ | done ].
    destruct (tail (Path p)) as [ | x l] eqn:Hl.
    + right. right. by left.
    + right. right. right. exists (x :: l).
      assert (Hall : Forall component (x :: l))
        by (apply Forall_forall; intros y Hy; by apply Htail).
      change (String.append "" (join (x :: l))) with (join (x :: l)).
      rewrite join_truthy by done.
      repeat split; try done.
      apply replace_char_absent, join_absent; [done | ].
      apply Forall_forall; intros y Hy; by apply Htail.
Qed.

Lemma validate_file_path_relative (l : list string) :
  l <> [] -> Forall component l -> ".." ∉ l ->
  Models.validate_file_path (join l) = inr (join l).
Proof.
  intros Hl Hall Hdots. unfold Models.validate_file_path.
  rewrite Path_join by done. unfold is_absolute, parts. simpl.
  by rewrite bool_decide_false.
Qed.

End StoredPaths.

(** X11. What [sanitize_path] returns for a path without a backslash is a
    path the [FileInfo] model stores: [validate_file_path] accepts it,
    unless the result is the parent reference [..] itself, which is what is
    left of a path that ends in one. *)
Theorem sanitized_path_accepted (p : string) :
  Py.contains_char "\" p = false ->
  FileValidator.sanitize_path p <> ".." ->
  Models.validate_file_path (FileValidator.sanitize_path p)
  = inr (FileValidator.sanitize_path p).
Proof.
  intros Hbs Hnot.
  destruct (sanitize_path_shape p Hbs)
    as [(x & Hx & E) | [E | [E | (l & Hl & Hall & Hdots & E)]]];
    rewrite E in *; try done.
  - change x with (PosixPath.join [x]).
    apply validate_file_path_relative; [done | by apply Forall_singleton | ].
    intros Hin%list_elem_of_singleton. by apply Hnot.
  - by apply validate_file_path_relative.
Qed.

Lemma sanitized_path_accepted_witness :
  Models.validate_file_path (FileValidator.sanitize_path "/etc/../passwd")
  = inr (FileValidator.sanitize_path "/etc/../passwd").
Proof.
  apply (sanitized_path_accepted "/etc/../passwd");
    [ reflexivity | vm_compute; discriminate ].
Defined.

(** The other case: the last component of the path is kept as it is. *)
Example sanitized_path_parent_reference :
  FileValidator.sanitize_path "uploads/.." = ".." /\
  Models.validate_file_path ".."
  = inl "File path cannot contain parent directory references".
Proof. split; by vm_compute. Qed.

(** ** The FileInfo entity *)

Section FileInfoRules.

Local Arguments Ascii.eqb : simpl never.

Lemma prefix_single (c : ascii) (s : string) :
  String.prefix (String c "") s
  = match s with
    | EmptyString => false
    | String d _ => Ascii.eqb c d
    end.
Proof.
  destruct s as [ | d r]; [done | ]. simpl.
  destruct (ascii_dec c d) as [-> | Hne].
  - rewrite Ascii.eqb_refl. by destruct r.
  - by rewrite (proj2 (Ascii.eqb_neq c d) Hne).
Qed.

(** Looking for a one-character string is looking for the character. *)
Lemma contains_single (c : ascii) (s : string) :
  PyText.contains (String c "") s = Py.contains_char c s.
Proof.
  induction s as [ | d r IH]; [done | ].
  change (PyText.contains (String c "") (String d r))
    with (String.prefix (String c "") (String d r)
          || PyText.contains (String c "") r).
  rewrite prefix_single, IH. simpl. by destruct (Ascii.eqb c d).
Qed.

(** The loop over [invalid_chars], entry by entry. *)
Lemma find_invalid_char (v : string) :
  List.find (fun char => PyText.contains char v) FileInfo.invalid_chars
  = if PyText.contains "/" v then Some "/"
    else if PyText.contains "\" v then Some "\"
    else if PyText.contains (String PyText.NUL "") v
         then Some (String PyText.NUL "")
    else if PyText.contains ".." v then Some ".."
    else None.
Proof. reflexivity. Qed.

(** What the filename validator of the model lets through. *)
Lemma fileinfo_filename_ok (v : string) :
  FileInfo.validate_filename v = inr v <->
  v <> "" /\ PyText.strip v = v
  /\ Py.contains_char "/" v = false /\ Py.contains_char "\" v = false
  /\ Py.contains_char PyText.NUL v = false /\ PyText.contains ".." v = false.
Proof.
  unfold FileInfo.validate_filename. rewrite find_invalid_char.
  destruct v as [ | c r]; [ simpl; split; [done | by intros [] ] | ].
  simpl Py.truthy. simpl negb. rewrite orb_false_l.
  destruct (String.eqb_spec (PyText.strip (String c r)) (String c r)) as [Hs | Hs];
    simpl negb; cbv iota; [ | split; [done | by intros (_ & ? & _)] ].
  rewrite !contains_single.
  destruct (Py.contains_char "/" (String c r));
    [ split; [done | by intros (_ & _ & ? & _)] | ].
  destruct (Py.contains_char "\" (String c r));
    [ split; [done | by intros (_ & _ & _ & ? & _)] | ].
  destruct (Py.contains_char PyText.NUL (String c r));
    [ split; [done | by intros (_ & _ & _ & _ & ? & _)] | ].
  destruct (PyText.contains ".." (String c r));
    [ split; [done | by intros (_ & _ & _ & _ & _ & ?)] | ].
  split; [ intros _; by repeat split | done ].
Qed.

Lemma fileinfo_filename_result (v w : string) :
  FileInfo.validate_filename v = inr w -> w = v.
Proof.
  unfold FileInfo.validate_filename. repeat case_match; congruence.
Qed.

Lemma field_length_ok (lo hi : Z) (v w : string) :
  FileInfo.field_length lo hi v = inr w <-> w = v /\ lo <= Py.len v <= hi.
Proof.
  unfold FileInfo.field_length. rewrite Z.gtb_ltb.
  destruct (Z.ltb_spec (Py.len v) lo); [ split; [done | lia] | ].
  destruct (Z.ltb_spec hi (Py.len v)); [ split; [done | lia] | ].
  split; [ intros [= <-]; split; [done | lia] | by intros [-> _] ].
Qed.

Lemma model_file_size_ok (v w : Z) :
  Models.validate_file_size v = inr w ->
  w = v /\ 0 < v <= Constants.MAX_FILE_SIZE.
Proof.
  unfold Models.validate_file_size. rewrite Z.gtb_ltb.
  destruct (Z.leb_spec v 0); [done | ].
  destruct (Z.ltb_spec Constants.MAX_FILE_SIZE v); [done | ].
  intros [= <-]. split; [done | lia].
Qed.

Lemma model_file_path_result (v w : string) :
  Models.validate_file_path v = inr w -> w = v.
Proof. unfold Models.validate_file_path. repeat case_match; congruence. Qed.

End FileInfoRules.

Lemma fileinfo_new_checks
        (fresh : UUID) (now : datetime) (kw : FileInfo.Kwargs) (fi : FileInfo.t) :
  FileInfo.new fresh now kw = inr fi ->
  FileInfo.format fi ∈ [MARKDOWN; PDF; HTML] /\
  FileValidator.validate_file_size (FileInfo.size fi) "file" = (true, None) /\
  Models.validate_file_path (FileInfo.path fi) = inr (FileInfo.path fi) /\
  1 <= Py.len (FileInfo.filename fi) <= 255 /\
  PyText.strip (FileInfo.filename fi) = FileInfo.filename fi /\
  Py.contains_char "/" (FileInfo.filename fi) = false /\
  Py.contains_char "\" (FileInfo.filename fi) = false /\
  Py.contains_char PyText.NUL (FileInfo.filename fi) = false /\
  PyText.contains ".." (FileInfo.filename fi) = false /\
  32 <= Py.len (FileInfo.content_hash fi) <= 64.
Proof.
  unfold FileInfo.new.
  destruct (FileInfo.field_length 1 255 _) as [ | name0] eqn:Hlen; [done | ].
  apply field_length_ok in Hlen as [-> Hlen].
  destruct (FileInfo.validate_filename _) as [ | name] eqn:Hname; [done | ].
  pose proof (fileinfo_filename_result _ _ Hname) as ->.
  apply fileinfo_filename_ok in Hname as (_ & Hstrip & Hsep & Hbs & Hnul & Hdots).
  destruct (Models.validate_file_size _) as [ | sz] eqn:Hsize; [done | ].
  apply model_file_size_ok in Hsize as [-> Hsize].
  destruct (Models.validate_file_path _) as [ | pth] eqn:Hpath; [done | ].
  pose proof (model_file_path_result _ _ Hpath) as ->.
  destruct (FileInfo.field_length 32 64 _) as [ | hash] eqn:Hhash; [done | ].
  apply field_length_ok in Hhash as [-> Hhash].
  intros [= <-]. simpl.
  split; [ | split; [ | tauto ] ].
  - unfold FileInfo.normalize_format.
    destruct (normalize_canonical (ConversionValidator.format_str (FileInfo.kw_format kw)))
      as [-> | [-> | ->]]; by_computation.
  - assert (Hv : fst (FileValidator.validate_file_size (FileInfo.kw_size kw) "file") = true).
    { apply validate_file_size_valid. rewrite max_size_lookup. simpl. lia. }
    unfold FileValidator.validate_file_size in *.
    by repeat case_match.
Qed.


(** X12. Every [FileInfo] the constructor returns has a canonical format
    (Markdown, PDF or HTML, never an alias), a size [validate_file_size]
    accepts for a file, a relative path without a parent reference, a file
    name of 1 to 255 characters without surrounding white space, separator,
    null character or [..], and a content hash of 32 to 64 characters. *)
Theorem fileinfo_invariants
        (fresh : UUID) (now : datetime) (kw : FileInfo.Kwargs) (fi : FileInfo.t) :
  FileInfo.new fresh now kw = inr fi ->
  FileInfo.format fi ∈ [MARKDOWN; PDF; HTML] /\
  FileValidator.validate_file_size (FileInfo.size fi) "file" = (true, None) /\
  Models.validate_file_path (FileInfo.path fi) = inr (FileInfo.path fi) /\
  1 <= Py.len (FileInfo.filename fi) <= 255 /\
  PyText.strip (FileInfo.filename fi) = FileInfo.filename fi /\
  Py.contains_char "/" (FileInfo.filename fi) = false /\
  Py.contains_char "\" (FileInfo.filename fi) = false /\
  Py.contains_char PyText.NUL (FileInfo.filename fi) = false /\
  PyText.contains ".." (FileInfo.filename fi) = false /\
  32 <= Py.len (FileInfo.content_hash fi) <= 64.
Proof. apply fileinfo_new_checks. Qed.

(** X13. The checks made on an upload are enough to build its [FileInfo]:
    with a file name [FileValidator.validate_filename] accepts and that has
    no surrounding white space, a size [validate_file_size] accepts for a
    file, a path [validate_file_path] accepts and a hash of 32 to 64
    characters, the constructor does not raise. *)
Theorem upload_checks_suffice
        (fresh : UUID) (now : datetime) (kw : FileInfo.Kwargs) :
  fst (FileNames.validate_filename (FileInfo.kw_filename kw)) = true ->
  PyText.strip (FileInfo.kw_filename kw) = FileInfo.kw_filename kw ->
  fst (FileValidator.validate_file_size (FileInfo.kw_size kw) "file") = true ->
  Models.validate_file_path (FileInfo.kw_path kw) = inr (FileInfo.kw_path kw) ->
  32 <= Py.len (FileInfo.kw_content_hash kw) <= 64 ->
  exists fi, FileInfo.new fresh now kw = inr fi
             /\ FileInfo.filename fi = FileInfo.kw_filename kw
             /\ FileInfo.path fi = FileInfo.kw_path kw
             /\ FileInfo.size fi = FileInfo.kw_size kw.
Proof.
  intros (Hne & Hdots & Hsep & Hbs & Hnul & Hlen & _)%validate_filename_valid
         Hstrip Hsize Hpath Hhash.
  unfold FileInfo.new.
  assert (H1 : FileInfo.field_length 1 255 (FileInfo.kw_filename kw)
               = inr (FileInfo.kw_filename kw)).
  { apply field_length_ok. split; [done | ]. split; [ | done ].
    unfold Py.len. destruct (FileInfo.kw_filename kw); [done | simpl; lia]. }
  rewrite H1.
  rewrite (proj2 (fileinfo_filename_ok _)) by done.
  rewrite (proj2 (model_file_size_iff _)) by done.
  rewrite Hpath.
  rewrite (proj2 (field_length_ok 32 64 _ _)) by done.
  eexists. by repeat split.
Qed.

Lemma fileinfo_invariants_witness :
  FileInfo.format example_file ∈ [MARKDOWN; PDF; HTML] /\
  FileValidator.validate_file_size (FileInfo.size example_file) "file"
  = (true, None) /\
  Models.validate_file_path (FileInfo.path example_file)
  = inr (FileInfo.path example_file) /\
  1 <= Py.len (FileInfo.filename example_file) <= 255 /\
  PyText.strip (FileInfo.filename example_file) = FileInfo.filename example_file /\
  Py.contains_char "/" (FileInfo.filename example_file) = false /\
  Py.contains_char "\" (FileInfo.filename example_file) = false /\
  Py.contains_char PyText.NUL (FileInfo.filename example_file) = false /\
  PyText.contains ".." (FileInfo.filename example_file) = false /\
  32 <= Py.len (FileInfo.content_hash example_file) <= 64.
Proof.
  apply (fileinfo_invariants 5%N 1000 example_upload example_file).
  vm_compute. reflexivity.
Defined.

Lemma upload_checks_suffice_witness :
  exists fi, FileInfo.new 5%N 1000 example_upload = inr fi
             /\ FileInfo.filename fi = FileInfo.kw_filename example_upload
             /\ FileInfo.path fi = FileInfo.kw_path example_upload
             /\ FileInfo.size fi = FileInfo.kw_size example_upload.
Proof.
  apply (upload_checks_suffice 5%N 1000 example_upload).
  - reflexivity.
  - reflexivity.
  - reflexivity.
  - reflexivity.
  - vm_compute. split; discriminate.
Defined.

Section StoredLocation.

Import PosixPath.

Lemma validate_file_path_ok (v w : string) :
  Models.validate_file_path v = inr w ->
  root (Path v) = "" /\ ".." ∉ tail (Path v).
Proof.
  unfold Models.validate_file_path, is_absolute, parts.
  destruct (root (Path v)); simpl; [ | done ].
  case_bool_decide; [done | ]. by intros _.
Qed.

End StoredLocation.

(** X14. A stored file stays under the base directory: the full path of a
    [FileInfo] the constructor returned is the base directory followed by
    the components of the stored path, and it holds no parent reference
    when the base directory holds none. *)
Theorem full_path_under_base
        (fresh : UUID) (now : datetime) (kw : FileInfo.Kwargs)
        (fi : FileInfo.t) (base_dir : PosixPath.t) :
  FileInfo.new fresh now kw = inr fi ->
  ".." ∉ PosixPath.tail base_dir ->
  PosixPath.root (FileInfo.get_full_path fi base_dir) = PosixPath.root base_dir /\
  PosixPath.tail (FileInfo.get_full_path fi base_dir)
  = (PosixPath.tail base_dir
     ++ PosixPath.tail (PosixPath.Path (FileInfo.path fi)))%list /\
  ".." ∉ PosixPath.tail (FileInfo.get_full_path fi base_dir).
Proof.
  intros Hnew Hbase.
  destruct (fileinfo_new_checks _ _ _ _ Hnew) as (_ & _ & Hpath & _).
  apply validate_file_path_ok in Hpath as [Hroot Hdots].
  unfold FileInfo.get_full_path, PosixPath.is_absolute. rewrite Hroot. simpl.
  repeat split; try done.
  intros [Hin | Hin]%elem_of_app; done.
Qed.

Lemma full_path_under_base_witness :
  PosixPath.tail
    (FileInfo.get_full_path example_file (PosixPath.Path "/srv/var/doctor"))
  = ["srv"; "var"; "doctor"; "uploads"; "2024"; "01"; "document.md"].
Proof.
  destruct (full_path_under_base 5%N 1000 example_upload example_file
              (PosixPath.Path "/srv/var/doctor")) as (_ & Htail & _).
  - vm_compute. reflexivity.
  - by_computation.
  - rewrite Htail. vm_compute. reflexivity.
Defined.

(** ** Statistics *)

Section Rates.

Lemma ratio_unit (a b : Z) :
  0 <= a -> 0 <= b ->
  (0 <= TaskStats.ratio a (a + b) <= 1)%Q.
Proof.
  intros Ha Hb. unfold TaskStats.ratio.
  destruct (Z.eqb_spec (a + b) 0) as [ | Hne]; [ split; by compute | ].
  assert (Hpos : (0 < inject_Z (a + b))%Q).
  { change 0%Q with (inject_Z 0). rewrite <- Zlt_Qlt. lia. }
  split.
  - apply Qle_shift_div_l; [done | ].
    rewrite Qmult_0_l. change 0%Q with (inject_Z 0). rewrite <- Zle_Qle. lia.
  - apply Qle_shift_div_r; [done | ].
    rewrite Qmult_1_l. rewrite <- Zle_Qle. lia.
Qed.

End Rates.

(** X15. With the counters the constructor lets through (none negative),
    [cache_hit_rate] and [success_rate] are between 0 and 1, and they are 0
    when nothing was counted: the division is only made by a positive
    total. The quotient is taken exactly. *)
Theorem rates_within_unit (s : TaskStats.t) :
  TaskStats.validated s ->
  (0 <= TaskStats.cache_hit_rate s <= 1)%Q /\
  (0 <= TaskStats.success_rate s <= 1)%Q /\
  (TaskStats.cache_hits s + TaskStats.cache_misses s = 0 ->
   TaskStats.cache_hit_rate s = 0%Q) /\
  (TaskStats.completed_tasks s + TaskStats.failed_tasks s = 0 ->
   TaskStats.success_rate s = 0%Q).
Proof.
  intros (_ & _ & _ & Hc & Hf & _ & _ & _ & Hh & Hm & _).
  split; [ by apply ratio_unit | ]. split; [ by apply ratio_unit | ].
  unfold TaskStats.cache_hit_rate, TaskStats.success_rate, TaskStats.ratio.
  split; intros ->; done.
Qed.

Lemma rates_within_unit_witness :
  (0 <= TaskStats.cache_hit_rate example_stats <= 1)%Q /\
  (0 <= TaskStats.success_rate example_stats <= 1)%Q.
Proof.
  destruct (rates_within_unit example_stats) as (Hhit & Hok & _).
  - unfold TaskStats.validated. simpl. repeat split; (lia || by compute).
  - by split.
Defined.

(** ** More of the Task entity *)

Section TaskRules.

Import TaskModel.

Lemma canonical_normalize (f : DocumentFormat) :
  f ∈ [MARKDOWN; PDF; HTML] ->
  DocumentFormat.normalize (DocumentFormat.value f) = f.
Proof.
  intros Hf. apply (bool_decide_pack _) in Hf.
  by destruct f.
Qed.

Lemma normalize_in_triangle (x : string) :
  DocumentFormat.normalize x ∈ [MARKDOWN; PDF; HTML].
Proof.
  destruct (normalize_canonical x) as [-> | [-> | ->]]; by_computation.
Qed.

(** What the constructor checks, field by field. *)
Lemma new_checks fresh now kw t :
  new fresh now kw = inr t ->
  source_format t = normalize_formats (kw_source_format kw) /\
  target_format t = normalize_formats (kw_target_format kw) /\
  Constants.can_convert (source_format t) (target_format t) = true /\
  0 <= progress t <= 100.
Proof.
  unfold new, validate_conversion, field_range. intros Hnew.
  repeat case_match; simplify_eq; simpl;
    repeat split; try lia; try done;
    by match goal with
       | H : negb _ = false |- _ => apply negb_false_iff in H
       end.
Qed.

Lemma reachable_formats t :
  reachable t ->
  source_format t ∈ [MARKDOWN; PDF; HTML] /\
  target_format t ∈ [MARKDOWN; PDF; HTML] /\
  Constants.can_convert (source_format t) (target_format t) = true /\
  0 <= progress t <= 100.
Proof.
  induction 1 as [fresh now kw t Hnew | | | ]; simpl; try done.
  - destruct (new_checks _ _ _ _ Hnew) as (Hs & Ht & Hc & Hp).
    rewrite Hs, Ht in *. unfold normalize_formats in *.
    repeat split; try done; try lia; apply normalize_in_triangle.
  - destruct IHreachable as (? & ? & ? & ?). repeat split; try done; lia.
Qed.


End TaskRules.

(** X16. Every task (built by the constructor, changed by the mutators)
    keeps a supported conversion: its source and target formats are
    canonical (Markdown, PDF or HTML, never an alias), they differ,
    [can_convert] holds for them, and its progress is within 0 to 100. *)
Theorem task_conversion_invariant (t : Task) :
  TaskModel.reachable t ->
  source_format t ∈ [MARKDOWN; PDF; HTML] /\
  target_format t ∈ [MARKDOWN; PDF; HTML] /\
  source_format t <> target_format t /\
  Constants.can_convert (source_format t) (target_format t) = true /\
  0 <= progress t <= 100.
Proof.
  intros (Hs & Ht & Hc & Hp)%reachable_formats.
  repeat split; try done; try lia.
  intros Heq. rewrite Heq, can_convert_cases in Hc.
  by rewrite bool_decide_true in Hc.
Qed.

Lemma task_conversion_invariant_witness :
  source_format TaskModel.completed_task ∈ [MARKDOWN; PDF; HTML] /\
  target_format TaskModel.completed_task ∈ [MARKDOWN; PDF; HTML] /\
  source_format TaskModel.completed_task <> target_format TaskModel.completed_task /\
  Constants.can_convert (source_format TaskModel.completed_task)
                        (target_format TaskModel.completed_task) = true /\
  0 <= progress TaskModel.completed_task <= 100.
Proof.
  apply (task_conversion_invariant TaskModel.completed_task).
  apply TaskModel.reach_completed, TaskModel.reach_processing.
  apply (TaskModel.reach_new 7%N 1000 TaskModel.minimal_kwargs).
  reflexivity.
Defined.


(** X18. A conversion that is started and then completed ends in a final,
    inactive state with progress 100 and the output recorded, and its
    processing time is its duration, the time between the two calls; a
    task completed without having been started keeps the processing time
    it had and has no duration. *)
Theorem completed_task_timing
        (t : Task) (start finish : datetime) (output : UUID) :
  let done := TaskModel.set_completed finish output
                (TaskModel.set_processing start t) in
  TaskModel.is_complete done = true /\
  TaskModel.is_active done = false /\
  TaskModel.is_active (TaskModel.set_processing start t) = true /\
  progress done = 100 /\
  output_file_id done = Some output /\
  TaskModel.duration done = Some (total_seconds start finish) /\
  processing_time done = TaskModel.duration done /\
  (started_at t = None ->
   processing_time (TaskModel.set_completed finish output t) = processing_time t
   /\ TaskModel.duration (TaskModel.set_completed finish output t) = None).
Proof.
  intros finished.
  assert (Hlate : started_at t = None ->
                  processing_time (TaskModel.set_completed finish output t)
                  = processing_time t
                  /\ TaskModel.duration (TaskModel.set_completed finish output t)
                     = None).
  { intros Hs. unfold TaskModel.duration. simpl. by rewrite Hs. }
  by repeat (split; [done | ]).
Qed.

Lemma completed_task_timing_witness :
  processing_time (TaskModel.set_completed 3000 9%N TaskModel.created_task)
  = None.
Proof.
  destruct (completed_task_timing TaskModel.created_task 2000 3000 9%N)
    as (_ & _ & _ & _ & _ & _ & _ & H).
  apply H. reflexivity.
Defined.

(** X19. A failed task is final and carries its error: the code and the
    details are recorded, the message quotes the details, and the task can
    be retried exactly when its retry count is below 3, which holds for
    every task built with the default count. *)
Theorem failed_task_record
        (t : Task) (now : datetime) (code : ErrorCode) (details : string) :
  let failed := TaskModel.set_failed now code details t in
  TaskModel.is_complete failed = true /\
  TaskModel.is_active failed = false /\
  error_code failed = Some code /\
  error_details failed = Some details /\
  message failed = "Conversion failed: " ++ details /\
  completed_at failed = Some now /\
  progress failed = progress t /\
  (TaskModel.can_retry failed = true <-> retry_count t < 3).
Proof.
  intros failed. repeat split; try done.
  - unfold TaskModel.can_retry. simpl.
    intros [H _]%andb_true_iff. by apply Z.ltb_lt.
  - intros H. unfold TaskModel.can_retry. simpl.
    apply andb_true_iff. split; [ by apply Z.ltb_lt | done ].
Qed.

(** ** The error taxonomy *)

Example uuid_str_example :
  Exceptions.uuid_str 24249434048109030647017182301789831168%N
  = "123e4567-e89b-12d3-a456-426614174000" /\
  Exceptions.uuid_str 255%N = "00000000-0000-0000-0000-0000000000ff".
Proof. split; by vm_compute. Qed.

(** X20. Every specialised exception agrees with the [ErrorCode] table:
    its error code is the value of an [ErrorCode] member and its status
    code is the HTTP status [to_http_status] gives that member, whatever
    the arguments; so does a bare [DoctorException], which falls back to
    [internal_error] and 500, also for an empty error code. *)
Theorem exceptions_match_error_codes
        (msg reason filename operation src tgt : string)
        (field option_name filename_opt : option string)
        (kwargs : gmap string PyText.Value)
        (file_id : option UUID) (task_id : UUID)
        (size max_size count max_count timeout usage max_usage : Z) :
  Exceptions.consistent (Exceptions.DoctorException_ msg) /\
  Exceptions.consistent (Exceptions.init msg (Some "") None 500) /\
  Exceptions.consistent (Exceptions.ValidationError msg field kwargs) /\
  Exceptions.consistent (Exceptions.FileNotFoundError file_id filename_opt) /\
  Exceptions.consistent (Exceptions.FileTooLargeError size max_size) /\
  Exceptions.consistent (Exceptions.FileCorruptedError filename reason) /\
  Exceptions.consistent (Exceptions.TaskNotFoundError task_id) /\
  Exceptions.consistent (Exceptions.TaskExpiredError task_id) /\
  Exceptions.consistent (Exceptions.TaskLimitExceededError count max_count) /\
  Exceptions.consistent (Exceptions.TaskTimeoutError task_id timeout) /\
  Exceptions.consistent (Exceptions.ConversionFailedError src tgt reason) /\
  Exceptions.consistent (Exceptions.UnsupportedConversionError src tgt) /\
  Exceptions.consistent (Exceptions.InvalidOptionsError msg option_name) /\
  Exceptions.consistent (Exceptions.StorageError msg operation) /\
  Exceptions.consistent (Exceptions.MemoryLimitError usage max_usage) /\
  Exceptions.consistent (Exceptions.ServiceUnavailableError reason).
Proof.
  unfold Exceptions.consistent, Exceptions.FileNotFoundError.
  repeat split;
    try (destruct file_id; try destruct filename_opt as [[ | ] | ]);
    eexists; (split; [ reflexivity | reflexivity ]).
Qed.

Section Payloads.

Import Exceptions.

Lemma to_dict_lookups (e : DoctorException) :
  to_dict e !! "error_code" = Some (PStr (error_code e)) /\
  to_dict e !! "message" = Some (PStr (message e)) /\
  to_dict e !! "details" = Some (PDict (details e)) /\
  to_dict e !! "status_code" = Some (PInt (status_code e)).
Proof.
  by repeat split.
Qed.

End Payloads.

(** X21. [to_dict] loses nothing: the payload has exactly the four keys
    [error_code], [message], [details] and [status_code], and two
    exceptions with the same payload are the same. *)
Theorem to_dict_injective (e1 e2 : Exceptions.DoctorException) :
  dom (Exceptions.to_dict e1)
  = ({[ "error_code"; "message"; "details"; "status_code" ]} : gset string) /\
  (Exceptions.to_dict e1 = Exceptions.to_dict e2 -> e1 = e2).
Proof.
  split.
  - unfold Exceptions.to_dict. rewrite !dom_insert_L, dom_singleton_L.
    by rewrite !(assoc_L (∪)).
  - intros Heq.
    destruct (to_dict_lookups e1) as (H1 & H2 & H3 & H4).
    destruct (to_dict_lookups e2) as (G1 & G2 & G3 & G4).
    rewrite Heq in H1, H2, H3, H4.
    assert (E1 : Exceptions.error_code e1 = Exceptions.error_code e2) by congruence.
    assert (E2 : Exceptions.message e1 = Exceptions.message e2) by congruence.
    assert (E3 : Exceptions.details e1 = Exceptions.details e2) by congruence.
    assert (E4 : Exceptions.status_code e1 = Exceptions.status_code e2) by congruence.
    clear - E1 E2 E3 E4. destruct e1, e2. simpl in *. by subst.
Qed.

Lemma to_dict_injective_witness :
  Exceptions.FileTooLargeError 10 5 = Exceptions.FileTooLargeError 10 5.
Proof.
  destruct (to_dict_injective (Exceptions.FileTooLargeError 10 5)
                              (Exceptions.FileTooLargeError 10 5)) as [_ H].
  apply H. reflexivity.
Defined.

(** ** The content hash *)

Section Streaming.

Variable HashState : Type.
Variable sha256 : HashState.
Variable update : HashState -> list byte -> HashState.
Variable hexdigest : HashState -> string.

(** What [hashlib] guarantees: feeding two blocks is feeding their
    concatenation, and feeding nothing changes nothing. *)
Hypothesis update_app :
  forall h a b, update (update h a) b = update h (a ++ b)%list.
Hypothesis update_nil : forall h, update h [] = h.

Lemma take_block_nil (n : nat) (l : list byte) :
  (0 < n)%nat -> take n l = [] -> l = [].
Proof. destruct n, l; (done || lia). Qed.

Lemma read_blocks_all (fuel : nat) (h : HashState) (unread : list byte) :
  (length unread + 4096 <= 4096 * fuel)%nat ->
  Hashing.read_blocks HashState update fuel h unread = Some (update h unread).
Proof.
  assert (Hpos : (0 < 4096)%nat) by apply Nat.lt_0_succ.
  revert h unread. induction fuel as [ | fuel IH]; intros h unread Hlen.
  - set (n := 4096%nat) in *. clearbody n. lia.
  - cbn [Hashing.read_blocks].
    set (n := 4096%nat) in *. clearbody n.
    destruct (take n unread) as [ | b block] eqn:Hblock.
    + apply take_block_nil in Hblock as ->; [ | done ]. by rewrite update_nil.
    + rewrite <- Hblock. rewrite IH.
      * by rewrite update_app, take_drop.
      * assert (Hne : (0 < length unread)%nat)
          by (destruct unread; [ by rewrite take_nil in Hblock | simpl; lia ]).
        rewrite length_drop. rewrite Nat.mul_succ_r in Hlen.
        destruct fuel as [ | fuel']; [ rewrite Nat.mul_0_r in Hlen; lia | ].
        rewrite Nat.mul_succ_r. lia.
Qed.

End Streaming.

(** X22. [calculate_hash] reads the file in blocks of 4096 bytes and gives
    the digest of the whole content: given enough reads for the length of
    the file, the loop ends and its result is what one [update] with the
    whole content gives, for any hash object for which feeding two blocks
    is feeding their concatenation. *)
Theorem calculate_hash_whole_content
        (HashState : Type) (sha256 : HashState)
        (update : HashState -> list byte -> HashState)
        (hexdigest : HashState -> string)
        (fuel : nat) (content : list byte) :
  (forall h a b, update (update h a) b = update h (a ++ b)%list) ->
  (forall h, update h [] = h) ->
  (length content + 4096 <= 4096 * fuel)%nat ->
  Hashing.calculate_hash HashState sha256 update hexdigest fuel content
  = Some (hexdigest (update sha256 content)).
Proof.
  intros Happ Hnil Hfuel. unfold Hashing.calculate_hash.
  by rewrite (read_blocks_all HashState update Happ Hnil).
Qed.

Lemma calculate_hash_whole_content_witness :
  Hashing.calculate_hash (list byte) [] Hashing.log_update
                         Hashing.log_hexdigest 3 (replicate 5000 x41)
  = Some "5000".
Proof.
  rewrite (calculate_hash_whole_content (list byte) [] Hashing.log_update
             Hashing.log_hexdigest 3 (replicate 5000 x41)).
  - vm_compute. reflexivity.
  - intros h a b. unfold Hashing.log_update. by rewrite app_assoc.
  - intros h. unfold Hashing.log_update. by rewrite app_nil_r.
  - apply Nat.leb_le. vm_compute. reflexivity.
Defined.

(** ** The validators, in full *)

Section UrlComplete.

Import URLValidator.

Variable urlparse : string -> string + ParseResult.
Variable IPAddress : Type.
Variable ip_address : string -> option IPAddress.
Variables is_private is_reserved is_loopback : IPAddress -> bool.

(** The result of [validate_url] once the URL is parsed. *)
Lemma validate_url_accepts (url : string) (parsed : ParseResult) :
  url <> "" -> Py.len url <= 2048 -> urlparse url = inr parsed ->
  fst (validate_url urlparse IPAddress ip_address
                    is_private is_reserved is_loopback url)
  = bool_decide (scheme parsed ∈ ALLOWED_SCHEMES)
    && negb (blocked (hostname parsed))
    && negb match hostname parsed with
            | Some h => Py.truthy h
                        && _is_private_ip IPAddress ip_address
                             is_private is_reserved is_loopback h
            | None => false
            end.
Proof.
  intros Hne Hlen Hp. unfold validate_url.
  destruct url as [ | c r]; [done | ]. simpl Py.truthy. simpl negb. cbv iota.
  rewrite Z.gtb_ltb. destruct (Z.ltb_spec 2048 (Py.len (String c r))); [lia | ].
  rewrite Hp. case_bool_decide; simpl; [ | done ].
  destruct (blocked (hostname parsed)); simpl; [done | ].
  by destruct (match hostname parsed with Some _ => _ | None => _ end).
Qed.

End UrlComplete.

(** X23. Whatever [urlparse] and [ipaddress] answer, [validate_url]
    accepts a URL exactly when it is not empty, has at most 2048
    characters, parses, its scheme is [http] or [https], and its host name,
    if it has one, is none of the blocked names and is not an IP address
    that is private, reserved or loopback. A URL with an allowed scheme and
    no host name at all is therefore accepted. *)
Theorem validate_url_accepts_iff
        (urlparse : string -> string + URLValidator.ParseResult)
        (IPAddress : Type) (ip_address : string -> option IPAddress)
        (is_private is_reserved is_loopback : IPAddress -> bool)
        (url : string) :
  let validate := URLValidator.validate_url urlparse IPAddress ip_address
                    is_private is_reserved is_loopback in
  (fst (validate url) = true <->
   url <> "" /\ Py.len url <= 2048 /\
   exists parsed,
     urlparse url = inr parsed /\
     (URLValidator.scheme parsed = "http" \/ URLValidator.scheme parsed = "https") /\
     (forall h, URLValidator.hostname parsed = Some h ->
        (h ∉ ["localhost"; "127.0.0.1"; "0.0.0.0"; "::1"]) /\
        (h <> "" -> forall ip, ip_address h = Some ip ->
           is_private ip = false /\ is_reserved ip = false
           /\ is_loopback ip = false))) /\
  (forall parsed, url <> "" -> Py.len url <= 2048 ->
     urlparse url = inr parsed ->
     URLValidator.scheme parsed = "http" \/ URLValidator.scheme parsed = "https" ->
     URLValidator.hostname parsed = None ->
     validate url = (true, None)).
Proof.
  intros validate. split.
  - split.
    + intros Hv.
      assert (Hne : url <> "").
      { intros ->. by vm_compute in Hv. }
      assert (Hlen : Py.len url <= 2048).
      { revert Hv. unfold validate, URLValidator.validate_url.
        destruct (negb (Py.truthy url)); [done | ].
        rewrite Z.gtb_ltb. by destruct (Z.ltb_spec 2048 (Py.len url)). }
      destruct (urlparse url) as [msg | parsed] eqn:Hp.
      { revert Hv. unfold validate, URLValidator.validate_url.
        rewrite Hp. by repeat case_match. }
      split; [done | ]. split; [done | ]. exists parsed. split; [done | ].
      unfold validate in Hv.
      rewrite (validate_url_accepts urlparse IPAddress ip_address is_private is_reserved
                 is_loopback url parsed) in Hv by done.
      apply andb_true_iff in Hv as [[Hs Hb]%andb_true_iff Hpriv].
      apply bool_decide_eq_true, allowed_scheme in Hs.
      split; [done | ]. intros h Hh. rewrite Hh in Hb, Hpriv.
      simpl in Hb. apply negb_true_iff, bool_decide_eq_false in Hb.
      rewrite (blocked_domain urlparse IPAddress ip_address is_private
                 is_reserved is_loopback) in Hb. split; [done | ].
      intros Hhne ip Hip. destruct h; [done | ].
      simpl in Hpriv. unfold URLValidator._is_private_ip in Hpriv.
      rewrite Hip in Hpriv.
      by destruct (is_private ip), (is_reserved ip), (is_loopback ip).
    + intros (Hne & Hlen & parsed & Hp & Hs & Hhost).
      unfold validate.
      rewrite (validate_url_accepts urlparse IPAddress ip_address is_private is_reserved
                 is_loopback url parsed) by done.
      rewrite bool_decide_true by (by apply allowed_scheme). simpl.
      destruct (URLValidator.hostname parsed) as [h | ] eqn:Hh; [ | done ].
      destruct (Hhost h eq_refl) as [Hnb Hip]. simpl.
      rewrite bool_decide_false by (by rewrite (blocked_domain urlparse IPAddress ip_address is_private
                 is_reserved is_loopback)). simpl.
      destruct h as [ | c r]; [done | ]. simpl.
      unfold URLValidator._is_private_ip.
      destruct (ip_address (String c r)) as [ip | ]; [ | done ].
      by destruct (Hip ltac:(done) ip eq_refl) as (-> & -> & ->).
  - intros parsed Hne Hlen Hp Hs Hh.
    unfold validate, URLValidator.validate_url.
    destruct url as [ | c r]; [done | ]. simpl Py.truthy. simpl negb. cbv iota.
    rewrite Z.gtb_ltb. destruct (Z.ltb_spec 2048 (Py.len (String c r))); [lia | ].
    rewrite Hp, Hh. simpl.
    by rewrite bool_decide_true by (by apply allowed_scheme).
Qed.

Lemma validate_url_accepts_iff_witness :
  UrlLib.validate_url "http:///var/doctor" = (true, None).
Proof.
  destruct (validate_url_accepts_iff UrlLib.urlparse UrlLib.IPAddress
              UrlLib.ip_address UrlLib.is_private UrlLib.is_reserved
              UrlLib.is_loopback "http:///var/doctor") as [_ H].
  apply (H (URLValidator.Parsed "http" None));
    [ discriminate | vm_compute; discriminate | reflexivity
    | left; reflexivity | reflexivity ].
Defined.

Section TextLimit.

(** The UTF-8 encoding has at least one byte per character. *)
Lemma encode_utf8_length (s : string) :
  (String.length s <= length (Py.encode_utf8 s))%nat.
Proof.
  induction s as [ | c r IH]; [done | ].
  cbn [Py.encode_utf8 String.length]. rewrite length_app.
  assert (1 <= length (Py.encode_utf8_char c))%nat; [ | lia ].
  unfold Py.encode_utf8_char.
  destruct (N_of_ascii c <? 128)%N; [done | ].
  destruct c as [[] [] [] [] [] [] [] []]; vm_compute; lia.
Qed.

End TextLimit.

(** X24. With a size limit other than 0, [validate_text_input] accepts a
    text exactly when it is not empty, holds no null character and its
    UTF-8 encoding has at most [max_size] bytes; the encoding has at least
    one byte per character, so a text of more than [max_size] characters is
    always rejected, as is every text under a negative limit. *)
Theorem validate_text_input_limit (text : string) (max_size : Z) :
  max_size <> 0 ->
  (fst (TextValidator.validate_text_input text (Some max_size)) = true
   <-> text <> "" /\ Py.contains_char PyText.NUL text = false
       /\ Z.of_nat (length (Py.encode_utf8 text)) <= max_size) /\
  (max_size < Py.len text ->
   fst (TextValidator.validate_text_input text (Some max_size)) = false).
Proof.
  intros Hm.
  assert (Hiff : fst (TextValidator.validate_text_input text (Some max_size)) = true
                 <-> text <> "" /\ Py.contains_char PyText.NUL text = false
                     /\ Z.of_nat (length (Py.encode_utf8 text)) <= max_size).
  { unfold TextValidator.validate_text_input.
    destruct text as [ | c r]; [ simpl; split; [done | by intros []] | ].
    simpl Py.truthy. simpl negb. cbv iota. unfold PyText.NUL.
    destruct (Py.contains_char "000" (String c r));
      [ simpl; split; [done | by intros (_ & ? & _)] | ].
    unfold Py.truthy_int. rewrite (proj2 (Z.eqb_neq max_size 0) Hm).
    simpl negb. cbv iota. rewrite Z.gtb_ltb.
    destruct (Z.ltb_spec max_size (Z.of_nat (length (Py.encode_utf8 (String c r)))));
      cbn [fst]; (split; [ intros ? | intros (_ & _ & ?) ]); (done || lia). }
  split; [done | ].
  intros Hlong.
  destruct (fst (TextValidator.validate_text_input text (Some max_size))) eqn:E;
    [ | done ].
  destruct (proj1 Hiff eq_refl) as (_ & _ & Hbytes).
  pose proof (encode_utf8_length text). unfold Py.len in Hlong. lia.
Qed.

Lemma validate_text_input_limit_witness :
  fst (TextValidator.validate_text_input "Hello World" (Some 5)) = false /\
  fst (TextValidator.validate_text_input "Hello World" (Some (-1))) = false.
Proof.
  destruct (validate_text_input_limit "Hello World" 5) as [_ H5];
    [ discriminate | ].
  destruct (validate_text_input_limit "Hello World" (-1)) as [_ Hneg];
    [ discriminate | ].
  split; [ apply H5 | apply Hneg ]; reflexivity.
Defined.

(** X25. [quick_format_check] only looks at the first 1024 bytes: two files
    that agree on them get the same answer. A file claimed as PDF is valid
    exactly when those bytes start with the PDF signature; every other
    format is text-like, and a file claimed as one is valid exactly when
    those bytes hold no null byte, whatever their encoding: the answer that
    the file is not readable as text is never given. *)
Theorem quick_format_check_header_only
        (content other : list byte) (fmt : DocumentFormat) :
  (take 1024 content = take 1024 other ->
   FileValidator.quick_format_check (FileValidator.Holding content) fmt
   = FileValidator.quick_format_check (FileValidator.Holding other) fmt) /\
  fst (FileValidator.quick_format_check (FileValidator.Holding content) fmt)
  = (if decide (fmt = PDF)
     then Py.startswith FileValidator.pdf_magic (take 1024 content)
     else negb (Py.contains_byte x00 (take 1024 content))) /\
  snd (FileValidator.quick_format_check (FileValidator.Holding content) fmt)
  <> Some "File is not readable as text".
Proof.
  unfold FileValidator.quick_format_check.
  split; [ by intros -> | ].
  cbv zeta. generalize (take 1024 content). intros header.
  destruct (Py.startswith FileValidator.pdf_magic header),
           (Py.contains_byte x00 header), (Py.decode_utf8 header);
    by destruct fmt.
Qed.

Lemma quick_format_check_header_only_witness :
  FileValidator.quick_format_check
    (FileValidator.Holding (replicate 1024 x41 ++ [x00])) HTML
  = FileValidator.quick_format_check
      (FileValidator.Holding (replicate 1024 x41 ++ [x42])) HTML.
Proof.
  destruct (quick_format_check_header_only
              (replicate 1024 x41 ++ [x00]) (replicate 1024 x41 ++ [x42]) HTML)
    as [H _].
  apply H. vm_compute. reflexivity.
Defined.
